(** * LaMarzoccoBBW dashboard: the state-aggregation core of [dashboard.py]

    A shallow embedding of the Arduino status client, the simulated and the
    cloud telemetry sources and the data coordinator, followed by the
    properties of the specification that concern them.

    Conventions of the embedding.
    - A Python [float] is an exact rational ([Q]); IEEE rounding error, NaN
      and the infinities are not modelled.  Comparisons of computed floats are
      stated with [==] ([Qeq]); values that are copied are compared with [=].
    - [time.monotonic()], [time.time()] and [random.uniform] are inputs: every
      operation takes the clock readings and the random draws it consumes.
    - A decoded JSON document is a [json] value, a Python [dict] with string
      keys a [gmap string json].
    - A method that mutates [self] is a function from the old object to the
      new one; a [threading.Event] is a [bool]; a block run under a lock is
      one atomic step. *)

From Stdlib Require Import ZArith QArith Qround Qpower Lia Lqa.
From stdpp Require Import base option list gmap strings.

Set Warnings "-register-all".

#[local] Open Scope Q_scope.

(** ** Python numerics on rationals *)

Module Py.

Definition ltb (a b : Q) : bool :=
  match a ?= b with Lt => true | _ => false end.

(** [max(a, b)]: the first argument unless the second is strictly larger. *)
Definition max (a b : Q) : Q := if ltb a b then b else a.

(** [min(a, b)]: the first argument unless the second is strictly smaller. *)
Definition min (a b : Q) : Q := if ltb b a then b else a.

(** [int(x)] on a float: truncation toward zero. *)
Definition int_of_float (x : Q) : Z := Z.quot (Qnum x) (Zpos (Qden x)).

(** Nearest integer, ties to the even one. *)
Definition round_half_even (x : Q) : Z :=
  let f := Qfloor x in
  match ((x - inject_Z f) ?= (1 # 2))%Q with
  | Lt => f
  | Gt => (f + 1)%Z
  | Eq => if Z.even f then f else (f + 1)%Z
  end.

(** [round(x, ndigits)] for a float and [ndigits >= 0]. *)
Definition round (x : Q) (ndigits : nat) : Q :=
  let scale := inject_Z (10 ^ Z.of_nat ndigits) in
  inject_Z (round_half_even (x * scale)) / scale.

(** Truthiness of a float: [bool(x)]. *)
Definition truthy_float (x : Q) : bool := negb (Qeq_bool x 0).

End Py.

(** ** Decoded JSON values *)

Inductive json : Type :=
| JNull
| JBool (b : bool)
| JInt (n : Z)
| JFloat (q : Q)
| JStr (s : string)
| JArr (l : list json)
| JObj (m : gmap string json).

(** ** Data models *)

Module ShotMetrics.

(** [brew_state] is annotated [str], but the cloud parser stores whatever
    the payload holds under ["status"], hence a [json] value. *)
Record t : Type := mk {
  weight_g : Q;
  flow_g_s : Q;
  shot_time_ms : Z;
  target_weight_g : Q;
  pressure_bar : Q;
  boiler_temp_c : Q;
  group_temp_c : Q;
  brew_state : json;
  scale_connected : bool;
  notes : string
}.

(** [ShotMetrics()] *)
Definition default : t :=
  mk 0 0 0%Z 0 0 0 0 (JStr "IDLE") false "".

(** [ShotMetrics(notes=n)] *)
Definition with_notes (n : string) : t :=
  mk 0 0 0%Z 0 0 0 0 (JStr "IDLE") false n.

End ShotMetrics.

Module ArduinoStatus.

Record t : Type := mk {
  mode : string;
  paddle : Z;
  relay_main : Z;
  override : string;
  flush_active : bool;
  gesture_enabled : bool;
  gesture_flush_ms : Z;
  gesture_pulse_min_ms : Z;
  gesture_pulse_max_ms : Z;
  raw : gmap string json;
  last_error : option string
}.

(** [ArduinoStatus()] *)
Definition default : t :=
  mk "UNKNOWN" 0 0 "off" false true 0 0 0 ∅ None.

End ArduinoStatus.

(** ** The simulated source *)

Module SimulatedLaMarzoccoSource.

Record t : Type := mk {
  target_weight_g : Q;
  _shot_active : bool;
  _shot_start : Q;
  _weight : Q;
  _flow : Q;
  _pressure : Q;
  _boiler_temp : Q;
  _group_temp : Q;
  _last_update : Q
}.

(** [__init__(target_weight_g)], [now] being the reading of
    [time.monotonic()]. *)
Definition init (target : Q) (now : Q) : t :=
  mk target false 0 0 0 0 94 93 now.

(** What one call of [_tick] reads from its environment: the monotonic
    clock and the four [random.uniform] draws.  The first two draws happen
    only while a shot is active. *)
Record draws : Type := mk_draws {
  now : Q;
  u_flow : Q;
  u_pressure : Q;
  u_boiler : Q;
  u_group : Q
}.

(** The draws are within the bounds passed to [random.uniform]. *)
Definition draws_in_range (d : draws) : Prop :=
  -(1#10) <= u_flow d <= 1#10 /\
  -(3#10) <= u_pressure d <= 3#10 /\
  -(2#100) <= u_boiler d <= 2#100 /\
  -(15#1000) <= u_group d <= 15#1000.

(** [notify_arduino(status)]; [clock] is read only when a shot starts. *)
Definition notify_arduino (clock : Q) (status : ArduinoStatus.t) (s : t) : t :=
  if (ArduinoStatus.paddle status =? 1)%Z && negb (_shot_active s) then
    mk (target_weight_g s) true clock 0 0
       (_pressure s) (_boiler_temp s) (_group_temp s) (_last_update s)
  else if (ArduinoStatus.paddle status =? 0)%Z && _shot_active s then
    mk (target_weight_g s) false (_shot_start s) (_weight s) 0
       (_pressure s) (_boiler_temp s) (_group_temp s) (_last_update s)
  else s.

Definition _tick (d : draws) (s : t) : t :=
  let dt := Py.max (1#1000) (now d - _last_update s) in
  if _shot_active s then
    let elapsed := now d - _shot_start s in
    let flow_peak := 26#10 in
    let ramp := Py.min 1 (elapsed / 4) in
    let decay :=
      Py.max (2#10)
             (1 - _weight s / Py.max 1 (target_weight_g s * (11#10))) in
    let flow := Py.max 0 (flow_peak * ramp * decay + u_flow d) in
    mk (target_weight_g s) true (_shot_start s)
       (_weight s + flow * dt)
       flow
       (2 + 8 * ramp * decay + u_pressure d)
       (_boiler_temp s + u_boiler d)
       (_group_temp s + u_group d)
       (now d)
  else
    let weight := _weight s * (999#1000) in
    mk (target_weight_g s) false (_shot_start s)
       (if Py.ltb weight (5#100) then 0 else weight)
       (_flow s * (9#10))
       (_pressure s * (8#10))
       (_boiler_temp s + u_boiler d)
       (_group_temp s + u_group d)
       (now d).

(** The reading built from the state after the tick; [clock] is the second
    reading of [time.monotonic()], taken only while a shot is active. *)
Definition reading (clock : Q) (s : t) : ShotMetrics.t :=
  ShotMetrics.mk
    (Py.max 0 (Py.round (_weight s) 1))
    (Py.max 0 (Py.round (_flow s) 2))
    (if _shot_active s
     then Py.int_of_float ((clock - _shot_start s) * 1000)
     else 0%Z)
    (target_weight_g s)
    (Py.max 0 (Py.round (_pressure s) 2))
    (Py.round (_boiler_temp s) 1)
    (Py.round (_group_temp s) 1)
    (if _shot_active s then JStr "BREWING" else JStr "IDLE")
    true
    "Simulated".

(** [get_snapshot()]: one tick, then the reading; returns the mutated
    source and the reading. *)
Definition get_snapshot (d : draws) (clock : Q) (s : t) : t * ShotMetrics.t :=
  let s' := _tick d s in (s', reading clock s').

(** A run of ticks, oldest first. *)
Definition ticks (ds : list draws) (s : t) : t :=
  fold_left (fun acc d => _tick d acc) ds s.

End SimulatedLaMarzoccoSource.

(** ** Exceptions and the built-ins that raise them *)

(** The classes the handlers of [dashboard.py] tell apart.  Everything that
  is an [Exception] but neither a [URLError] nor a [ValueError] is
  [OtherException]; [JSONDecodeError] and [UnicodeDecodeError] are
  [ValueError]s. *)
Inductive exc_class : Type := URLError | ValueError | OtherException.

(** A raised exception: its class and the text a handler formats
  ([exc.reason] for a [URLError], [str(exc)] otherwise). *)
Record exc : Type := mk_exc { exc_cls : exc_class; exc_text : string }.

Inductive pytype : Type := TNone | TBool | TInt | TFloat | TStr | TList | TDict.

Definition type_of (v : json) : pytype :=
  match v with
  | JNull => TNone
  | JBool _ => TBool
  | JInt _ => TInt
  | JFloat _ => TFloat
  | JStr _ => TStr
  | JArr _ => TList
  | JObj _ => TDict
  end.

(** The ways a built-in applied to a decoded value fails. *)
Inductive builtin_failure : Type :=
| NoAttribute (ty : pytype) (attr : string)  (* AttributeError *)
| IntLiteral (s : string)                    (* ValueError from int(str) *)
| IntArgument (ty : pytype)                  (* TypeError from int(...) *)
| FloatLiteral (s : string)                  (* ValueError from float(str) *)
| FloatArgument (ty : pytype)                (* TypeError from float(...) *)
| NotIterable (ty : pytype).                 (* TypeError from a for loop *)

Definition failure_class (f : builtin_failure) : exc_class :=
  match f with
  | IntLiteral _ | FloatLiteral _ => ValueError
  | _ => OtherException
  end.

(** The parts of the Python runtime the embedding leaves open: how a value
  that is not a string prints, which strings are integer and float
  literals, and the wording of the built-ins' error messages. *)
Class PyRuntime : Type := {
  repr : json -> string;
  int_literal : string -> option Z;
  float_literal : string -> option Q;
  failure_text : builtin_failure -> string
}.

(** A runtime that prints nothing and accepts no literal; the closed examples
  are stated with it and do not depend on the choice. *)
Definition mute_runtime : PyRuntime :=
  {| repr := fun _ => ""%string;
     int_literal := fun _ => None;
     float_literal := fun _ => None;
     failure_text := fun _ => ""%string |}.

Definition result (A : Type) : Type := exc + A.

Module Builtins.
Section WithRuntime.
Context {rt : PyRuntime}.

Definition fail {A : Type} (f : builtin_failure) : result A :=
  inl (mk_exc (failure_class f) (failure_text f)).

(** [v.get(key, default)]: only a [dict] has the method. *)
Definition get (v : json) (key : string) (dflt : json) : result json :=
  match v with
  | JObj m => inr (default dflt (m !! key))
  | _ => fail (NoAttribute (type_of v) "get")
  end.

(** [str(v)] *)
Definition str (v : json) : string :=
  match v with JStr s => s | _ => repr v end.

(** [bool(v)] *)
Definition bool (v : json) : Datatypes.bool :=
  match v with
  | JNull => false
  | JBool b => b
  | JInt n => negb (n =? 0)%Z
  | JFloat q => Py.truthy_float q
  | JStr s => negb (String.eqb s "")
  | JArr l => match l with [] => false | _ => true end
  | JObj m => negb (Nat.eqb (size m) 0)
  end.

(** [int(v)] *)
Definition int (v : json) : result Z :=
  match v with
  | JBool b => inr (if b then 1 else 0)%Z
  | JInt n => inr n
  | JFloat q => inr (Py.int_of_float q)
  | JStr s =>
      match int_literal s with
      | Some n => inr n
      | None => fail (IntLiteral s)
      end
  | _ => fail (IntArgument (type_of v))
  end.

(** [float(v)] *)
Definition float (v : json) : result Q :=
  match v with
  | JBool b => inr (if b then 1 else 0)
  | JInt n => inr (inject_Z n)
  | JFloat q => inr q
  | JStr s =>
      match float_literal s with
      | Some q => inr q
      | None => fail (FloatLiteral s)
      end
  | _ => fail (FloatArgument (type_of v))
  end.

(** The elements a [for] loop over [v] visits. *)
Definition iter (v : json) : result (list json) :=
  match v with
  | JArr l => inr l
  | JObj m => inr (JStr <$> (map_to_list m).*1)
  | JStr s =>
      inr ((fun c => JStr (String c "")) <$> String.list_ascii_of_string s)
  | _ => fail (NotIterable (type_of v))
  end.

(** [a or b], both already evaluated. *)
Definition or (a b : json) : json := if bool a then a else b.

(** [v == s] for a string constant [s]. *)
Definition eq_str (v : json) (s : string) : Datatypes.bool :=
  match v with JStr s' => String.eqb s' s | _ => false end.

End WithRuntime.
End Builtins.

(** ** The Arduino HTTP client *)

Module ArduinoClient.

Import ArduinoStatus.

(** Attribute assignments [status.f = v]. *)
Definition set_mode (v : string) (s : t) : t :=
  mk v (paddle s) (relay_main s) (override s) (flush_active s)
     (gesture_enabled s) (gesture_flush_ms s) (gesture_pulse_min_ms s)
     (gesture_pulse_max_ms s) (raw s) (last_error s).
Definition set_paddle (v : Z) (s : t) : t :=
  mk (mode s) v (relay_main s) (override s) (flush_active s)
     (gesture_enabled s) (gesture_flush_ms s) (gesture_pulse_min_ms s)
     (gesture_pulse_max_ms s) (raw s) (last_error s).
Definition set_relay_main (v : Z) (s : t) : t :=
  mk (mode s) (paddle s) v (override s) (flush_active s)
     (gesture_enabled s) (gesture_flush_ms s) (gesture_pulse_min_ms s)
     (gesture_pulse_max_ms s) (raw s) (last_error s).
Definition set_override (v : string) (s : t) : t :=
  mk (mode s) (paddle s) (relay_main s) v (flush_active s)
     (gesture_enabled s) (gesture_flush_ms s) (gesture_pulse_min_ms s)
     (gesture_pulse_max_ms s) (raw s) (last_error s).
Definition set_flush_active (v : bool) (s : t) : t :=
  mk (mode s) (paddle s) (relay_main s) (override s) v
     (gesture_enabled s) (gesture_flush_ms s) (gesture_pulse_min_ms s)
     (gesture_pulse_max_ms s) (raw s) (last_error s).
Definition set_gesture_enabled (v : bool) (s : t) : t :=
  mk (mode s) (paddle s) (relay_main s) (override s) (flush_active s)
     v (gesture_flush_ms s) (gesture_pulse_min_ms s)
     (gesture_pulse_max_ms s) (raw s) (last_error s).
Definition set_gesture_flush_ms (v : Z) (s : t) : t :=
  mk (mode s) (paddle s) (relay_main s) (override s) (flush_active s)
     (gesture_enabled s) v (gesture_pulse_min_ms s)
     (gesture_pulse_max_ms s) (raw s) (last_error s).
Definition set_gesture_pulse_min_ms (v : Z) (s : t) : t :=
  mk (mode s) (paddle s) (relay_main s) (override s) (flush_active s)
     (gesture_enabled s) (gesture_flush_ms s) v
     (gesture_pulse_max_ms s) (raw s) (last_error s).
Definition set_gesture_pulse_max_ms (v : Z) (s : t) : t :=
  mk (mode s) (paddle s) (relay_main s) (override s) (flush_active s)
     (gesture_enabled s) (gesture_flush_ms s) (gesture_pulse_min_ms s)
     v (raw s) (last_error s).
Definition set_raw (v : gmap string json) (s : t) : t :=
  mk (mode s) (paddle s) (relay_main s) (override s) (flush_active s)
     (gesture_enabled s) (gesture_flush_ms s) (gesture_pulse_min_ms s)
     (gesture_pulse_max_ms s) v (last_error s).
Definition set_last_error (v : option string) (s : t) : t :=
  mk (mode s) (paddle s) (relay_main s) (override s) (flush_active s)
     (gesture_enabled s) (gesture_flush_ms s) (gesture_pulse_min_ms s)
     (gesture_pulse_max_ms s) (raw s) v.

(** Statements of the [try] block: they mutate [status] and may raise; what
    was assigned before an exception stays assigned. *)
Definition action (A : Type) : Type := t -> t * result A.

Definition ret {A : Type} (a : A) : action A := fun s => (s, inr a).

Definition bind {A B : Type} (m : action A) (k : A -> action B) : action B :=
  fun s =>
    match m s with
    | (s', inr a) => k a s'
    | (s', inl e) => (s', inl e)
    end.

Definition eval {A : Type} (r : result A) : action A := fun s => (s, r).

Definition assign (f : t -> t) : action unit := fun s => (f s, inr tt).

#[local] Instance action_ret : MRet action := @ret.
#[local] Instance action_bind : MBind action := fun A B k m => bind m k.

(** What [urlopen], [read], [decode] and [json.loads] deliver together: an
    exception, or the decoded document. *)
Inductive response : Type :=
| Raised (e : exc)
| Decoded (data : json).

(** The text of the three handlers. *)
Definition category (c : exc_class) : string :=
  match c with
  | URLError => "HTTP error: "
  | ValueError => "Decode error: "
  | OtherException => "Unexpected: "
  end.

Section WithRuntime.
Context {rt : PyRuntime}.

(** The assignments that follow [json.loads] in the [try] block.  At
    [status.raw = data] the document is a [dict], or an earlier [get] would
    have raised. *)
Definition assign_fields (data : json) : action unit :=
  v ← eval (Builtins.get data "mode" (JStr "UNKNOWN"));
  assign (set_mode (Builtins.str v)) ;;
  v ← eval (Builtins.get data "paddle" (JInt 0));
  n ← eval (Builtins.int v);
  assign (set_paddle n) ;;
  v ← eval (Builtins.get data "relay_main" (JInt 0));
  n ← eval (Builtins.int v);
  assign (set_relay_main n) ;;
  v ← eval (Builtins.get data "override" (JStr "off"));
  assign (set_override (Builtins.str v)) ;;
  v ← eval (Builtins.get data "flush_active" (JBool false));
  assign (set_flush_active (Builtins.bool v)) ;;
  v ← eval (Builtins.get data "gesture_enabled" (JBool true));
  assign (set_gesture_enabled (Builtins.bool v)) ;;
  v ← eval (Builtins.get data "gesture_flush_ms" (JInt 0));
  n ← eval (Builtins.int v);
  assign (set_gesture_flush_ms n) ;;
  v ← eval (Builtins.get data "gesture_pulse_min_ms" (JInt 0));
  n ← eval (Builtins.int v);
  assign (set_gesture_pulse_min_ms n) ;;
  v ← eval (Builtins.get data "gesture_pulse_max_ms" (JInt 0));
  n ← eval (Builtins.int v);
  assign (set_gesture_pulse_max_ms n) ;;
  assign (match data with JObj m => set_raw m | _ => fun s => s end).

Definition try_block (resp : response) : action unit :=
  match resp with
  | Raised e => eval (inl e)
  | Decoded data => assign_fields data
  end.

(** [fetch_status()]: the [try] block on a fresh [ArduinoStatus()], then
    the handler selected by the class of the exception, if any. *)
Definition fetch_status (resp : response) : t :=
  match try_block resp default with
  | (status, inr _) => status
  | (status, inl e) =>
      set_last_error (Some (category (exc_cls e) +:+ exc_text e)) status
  end.

End WithRuntime.
End ArduinoClient.

(** ** The cloud source *)

Module CloudLaMarzoccoSource.

(** Where the background thread is in [_loop_main]: before the setup calls
    have returned, in the [while] loop, or done (the coroutine returned, or
    [loop.stop] ended the event loop). *)
Inductive loop_phase : Type := Starting | Polling | Finished.

(** The fields that change after construction.  [_fallback] is a reference
    to the simulated source owned by the coordinator: the operations that
    use it take that object and return it mutated.  The event loop is taken
    to run from construction until [phase] is [Finished]. *)
Record t : Type := mk {
  _latest : ShotMetrics.t;
  _ready : bool;
  _stop : bool;
  phase : loop_phase
}.

(** [__init__], once the key material has been accepted. *)
Definition init : t :=
  mk (ShotMetrics.with_notes "Waiting for cloud...") false false Starting.

Definition is_running (c : t) : bool :=
  match phase c with Finished => false | _ => true end.

(** [stop()] *)
Definition stop (c : t) : t :=
  mk (_latest c) (_ready c) true
     (if is_running c then Finished else phase c).

#[local] Instance result_ret : MRet result := fun A a => inr a.
#[local] Instance result_bind : MBind result :=
  fun A B k m => match m with inl e => inl e | inr a => k a end.

(** The outputs of the three widgets the parser looks for. *)
Record outputs : Type := mk_outputs {
  machine_status : json;
  brew_by_weight : json;
  coffee_boiler : json
}.

(** Result of [await client.async_register_client()] and
    [await client.async_get_access_token()], with the import before them. *)
Inductive setup_outcome : Type :=
| SetupDone
| SetupRaised (e : exc).

(** Result of [await machine.get_dashboard()]: an exception, or the
    dashboard the machine object then holds ([None] when it has none),
    after [to_dict()]. *)
Inductive poll_outcome : Type :=
| PollRaised (e : exc)
| PollDone (dashboard : option json).

Section WithRuntime.
Context {rt : PyRuntime}.

(** One iteration of [for widget in widgets]. *)
Definition route (acc : outputs) (widget : json) : result outputs :=
  by_type ← Builtins.get widget "widget_type" JNull;
  by_code ← Builtins.get widget "code" JNull;
  let widget_type := Builtins.or by_type by_code in
  output ← Builtins.get widget "output" (JObj ∅);
  if Builtins.eq_str widget_type "CM_MACHINE_STATUS"
     || Builtins.eq_str widget_type "MachineStatus"
  then mret (mk_outputs output (brew_by_weight acc) (coffee_boiler acc))
  else if Builtins.eq_str widget_type "CM_BREW_BY_WEIGHT_DOSES"
          || Builtins.eq_str widget_type "BrewByWeightDoses"
  then mret (mk_outputs (machine_status acc) output (coffee_boiler acc))
  else if Builtins.eq_str widget_type "CM_COFFEE_BOILER"
          || Builtins.eq_str widget_type "CoffeeBoiler"
  then mret (mk_outputs (machine_status acc) (brew_by_weight acc) output)
  else mret acc.

Fixpoint for_each (widgets : list json) (acc : outputs) : result outputs :=
  match widgets with
  | [] => mret acc
  | widget :: rest => acc' ← route acc widget; for_each rest acc'
  end.

(** [shot_time_ms], from [time.time()] and ["brewingStartTime"]. *)
Definition shot_time (time_now : Q) (brewing_start : json) : Z :=
  let since (start : Q) :=
    Py.int_of_float (Py.max 0 (time_now * 1000 - start)) in
  match brewing_start with
  | JInt n => since (inject_Z n)
  | JFloat q => since q
  | JBool b => since (if b then 1 else 0)
  | _ => 0%Z
  end.

(** [target_weight], before the fallback to the previous reading. *)
Definition dose_weight (brew : json) : result Q :=
  if Builtins.bool brew then
    found ← Builtins.get brew "doses" JNull;
    let doses := Builtins.or found (JObj ∅) in
    let first_dose :=
      match doses with
      | JObj m => default JNull (m !! "dose_1")
      | _ => JNull
      end in
    match first_dose with
    | JObj _ =>
        w ← Builtins.get first_dose "weight" (JFloat 0);
        Builtins.float w
    | _ => mret 0
    end
  else mret 0.

(** [_parse_dashboard(machine)]; [previous] is [self._latest]. *)
Definition _parse_dashboard (time_now : Q) (dashboard : option json)
    (previous : ShotMetrics.t) : result ShotMetrics.t :=
  match dashboard with
  | None => mret (ShotMetrics.with_notes "No dashboard data yet")
  | Some data =>
      widgets ←
        match data with
        | JObj _ => Builtins.get data "widgets" (JArr [])
        | _ => mret (JArr [])
        end;
      elems ← Builtins.iter widgets;
      found ← for_each elems (mk_outputs (JObj ∅) (JObj ∅) (JObj ∅));
      status ← Builtins.get (machine_status found) "status" (JStr "UNKNOWN");
      brewing_start ←
        Builtins.get (machine_status found) "brewingStartTime" JNull;
      let shot_time_ms := shot_time time_now brewing_start in
      target_weight ← dose_weight (brew_by_weight found);
      temperature ←
        Builtins.get (coffee_boiler found) "temperature" (JFloat 0);
      boiler_temp ← Builtins.get (coffee_boiler found) "target" temperature;
      boiler ←
        (if Builtins.bool boiler_temp then Builtins.float boiler_temp
         else mret (ShotMetrics.boiler_temp_c previous));
      mret (ShotMetrics.mk
              (ShotMetrics.weight_g previous)
              (ShotMetrics.flow_g_s previous)
              shot_time_ms
              (if Py.truthy_float target_weight then target_weight
               else ShotMetrics.target_weight_g previous)
              (ShotMetrics.pressure_bar previous)
              boiler
              (ShotMetrics.group_temp_c previous)
              status
              (ShotMetrics.scale_connected previous)
              "Cloud dashboard")
  end.

(** The body of the [while] loop: the reading it stores in [_latest]. *)
Definition poll_once (time_now : Q) (o : poll_outcome) (c : t)
    : ShotMetrics.t :=
  let parsed :=
    match o with
    | PollRaised e => inl e
    | PollDone dashboard => _parse_dashboard time_now dashboard (_latest c)
    end in
  match parsed with
  | inr snapshot => snapshot
  | inl e => ShotMetrics.with_notes ("Cloud error: " +:+ exc_text e)
  end.

(** A step of the background thread. *)
Inductive event : Type :=
| Setup (o : setup_outcome)
| Poll (time_now : Q) (o : poll_outcome).

Definition loop_step (ev : event) (c : t) : t :=
  match phase c, ev with
  | Starting, Setup SetupDone => mk (_latest c) true (_stop c) Polling
  | Starting, Setup (SetupRaised e) =>
      mk (ShotMetrics.with_notes ("Cloud disabled: " +:+ exc_text e))
         true (_stop c) Finished
  | Polling, Poll time_now o =>
      if _stop c then mk (_latest c) (_ready c) (_stop c) Finished
      else mk (poll_once time_now o c) (_ready c) (_stop c) Polling
  | _, _ => c
  end.

End WithRuntime.

(** [get_snapshot()]; [fallback] is the simulated source [_fallback] refers
    to, [d] and [clock] are what its [get_snapshot] consumes if called. *)
Definition get_snapshot (d : SimulatedLaMarzoccoSource.draws) (clock : Q)
    (fallback : SimulatedLaMarzoccoSource.t) (c : t)
    : SimulatedLaMarzoccoSource.t * ShotMetrics.t :=
  if negb (_ready c) then
    (fallback, ShotMetrics.with_notes "Connecting to cloud...")
  else if String.prefix "Cloud disabled" (ShotMetrics.notes (_latest c)) then
    SimulatedLaMarzoccoSource.get_snapshot d clock fallback
  else (fallback, _latest c).

(** [notify_arduino(status)] *)
Definition notify_arduino (clock : Q) (status : ArduinoStatus.t)
    (fallback : SimulatedLaMarzoccoSource.t) : SimulatedLaMarzoccoSource.t :=
  SimulatedLaMarzoccoSource.notify_arduino clock status fallback.

End CloudLaMarzoccoSource.

(** ** The data coordinator *)

Module CombinedState.

Record t : Type := mk {
  timestamp : Q;
  arduino : ArduinoStatus.t;
  shot : ShotMetrics.t
}.

(** [CombinedState()], [time_now] being the reading of [time.time()]. *)
Definition default (time_now : Q) : t :=
  mk time_now ArduinoStatus.default ShotMetrics.default.

End CombinedState.

Module DataCoordinator.

(** What [lm_source] refers to: the coordinator's own [sim_source], or a
    cloud source whose [_fallback] is that same [sim_source]. *)
Inductive source : Type :=
| Simulated
| Cloud (c : CloudLaMarzoccoSource.t).

Record t : Type := mk {
  sim_source : SimulatedLaMarzoccoSource.t;
  lm_source : source;
  _state : CombinedState.t;
  _stop : bool
}.

(** What one poll cycle reads from its environment. *)
Record cycle_input : Type := mk_cycle_input {
  response : ArduinoClient.response;  (* of the status request *)
  notify_clock : Q;                   (* time.monotonic() in notify_arduino *)
  tick : SimulatedLaMarzoccoSource.draws;  (* consumed by _tick *)
  snapshot_clock : Q;                 (* time.monotonic() in get_snapshot *)
  wall_clock : Q                      (* time.time() *)
}.

Section WithRuntime.
Context {rt : PyRuntime}.

(** [self.lm_source.notify_arduino(arduino)]: both sources end up in the
    simulated source's hook. *)
Definition notify (clock : Q) (status : ArduinoStatus.t) (co : t)
    : SimulatedLaMarzoccoSource.t :=
  match lm_source co with
  | Simulated =>
      SimulatedLaMarzoccoSource.notify_arduino clock status (sim_source co)
  | Cloud _ =>
      CloudLaMarzoccoSource.notify_arduino clock status (sim_source co)
  end.

(** [self.lm_source.get_snapshot()] on the simulated source [sim]. *)
Definition snapshot (d : SimulatedLaMarzoccoSource.draws) (clock : Q)
    (sim : SimulatedLaMarzoccoSource.t) (co : t)
    : SimulatedLaMarzoccoSource.t * ShotMetrics.t :=
  match lm_source co with
  | Simulated => SimulatedLaMarzoccoSource.get_snapshot d clock sim
  | Cloud c => CloudLaMarzoccoSource.get_snapshot d clock sim c
  end.

Definition _update_once (i : cycle_input) (co : t) : t :=
  let arduino := ArduinoClient.fetch_status (response i) in
  let sim := notify (notify_clock i) arduino co in
  let '(sim', shot) := snapshot (tick i) (snapshot_clock i) sim co in
  mk sim' (lm_source co)
     (CombinedState.mk (wall_clock i) arduino shot)
     (_stop co).

(** One test of the [while] condition of [_loop], with the body if it
    holds. *)
Definition _loop_iteration (i : cycle_input) (co : t) : t :=
  if _stop co then co else _update_once i co.

(** A step of the cloud source's background thread, if there is one. *)
Definition cloud_step (ev : CloudLaMarzoccoSource.event) (co : t) : t :=
  match lm_source co with
  | Simulated => co
  | Cloud c =>
      mk (sim_source co) (Cloud (CloudLaMarzoccoSource.loop_step ev c))
         (_state co) (_stop co)
  end.

End WithRuntime.

(** [latest()] *)
Definition latest (co : t) : CombinedState.t :=
  CombinedState.mk (CombinedState.timestamp (_state co))
                   (CombinedState.arduino (_state co))
                   (CombinedState.shot (_state co)).

(** [stop()] *)
Definition stop (co : t) : t :=
  mk (sim_source co) (lm_source co) (_state co) true.

(** The stop event of the cloud source, when that is the active source. *)
Definition remote_stop (co : t) : option bool :=
  match lm_source co with
  | Simulated => None
  | Cloud c => Some (CloudLaMarzoccoSource._stop c)
  end.

End DataCoordinator.

(** ** Reachable states and sample inputs *)

Module Sim := SimulatedLaMarzoccoSource.
Module CloudSrc := CloudLaMarzoccoSource.

(** The states the simulated source takes: constructed, then notified and
    ticked in any order, with any clock readings and draws. *)
Inductive sim_reachable : Sim.t -> Prop :=
| reach_init target now :
    sim_reachable (Sim.init target now)
| reach_notify clock status s :
    sim_reachable s -> sim_reachable (Sim.notify_arduino clock status s)
| reach_tick d s :
    sim_reachable s -> sim_reachable (Sim._tick d s).

Section CloudReachable.
Context {rt : PyRuntime}.

(** The states the cloud source takes: constructed, then stepped by its
    background thread and stopped in any order. *)
Inductive cloud_reachable : CloudSrc.t -> Prop :=
| reach_cloud_init :
    cloud_reachable CloudSrc.init
| reach_loop_step ev c :
    cloud_reachable c -> cloud_reachable (CloudSrc.loop_step ev c)
| reach_stop c :
    cloud_reachable c -> cloud_reachable (CloudSrc.stop c).

End CloudReachable.

Module Samples.

(** A status with a given paddle position, otherwise [ArduinoStatus()]. *)
Definition paddle_at (p : Z) : ArduinoStatus.t :=
  ArduinoClient.set_paddle p ArduinoStatus.default.

(** A simulated source built at time 0 with a 36 g target. *)
Definition idle_sim : Sim.t := Sim.init 36 0.

(** The same source two seconds into a shot that started at time 1. *)
Definition brewing_sim : Sim.t :=
  Sim._tick (Sim.mk_draws 3 0 0 0 0)
            (Sim.notify_arduino 1 (paddle_at 1) idle_sim).

(** A tick at time 5 without jitter. *)
Definition later_tick : Sim.draws := Sim.mk_draws 5 0 0 0 0.

(** A tick 1.001 s after [idle_sim] was built, with a flow jitter of 0.08. *)
Definition slow_first_tick : Sim.draws :=
  Sim.mk_draws (1001#1000) (8#100) 0 0 0.

(** A tick 0.201 s after [idle_sim] was built, with the largest flow jitter. *)
Definition prompt_first_tick : Sim.draws :=
  Sim.mk_draws (201#1000) (1#10) 0 0 0.


(** [{"paddle": 1, "uptime": 42}] *)
Definition sparse_payload : gmap string json :=
  <["paddle" := JInt 1]> (<["uptime" := JInt 42]> ∅).

(** A dashboard with one coffee-boiler widget whose target is 94. *)
Definition boiler_dashboard : json :=
  JObj (<["widgets" :=
           JArr [JObj (<["code" := JStr "CM_COFFEE_BOILER"]>
                        (<["output" := JObj (<["target" := JInt 94]> ∅)]> ∅))]]>
          ∅).

(** A cloud source after a successful setup and one successful poll of
    [boiler_dashboard]. *)
Definition polled_cloud : CloudSrc.t :=
  @CloudSrc.loop_step mute_runtime
    (CloudSrc.Poll 0 (CloudSrc.PollDone (Some boiler_dashboard)))
    (@CloudSrc.loop_step mute_runtime (CloudSrc.Setup CloudSrc.SetupDone)
       CloudSrc.init).

(** A cloud source whose setup failed. *)
Definition disabled_cloud : CloudSrc.t :=
  @CloudSrc.loop_step mute_runtime
    (CloudSrc.Setup (CloudSrc.SetupRaised (mk_exc OtherException "no route")))
    CloudSrc.init.

(** A coordinator whose active source is a freshly built cloud source. *)
Definition cloud_coordinator : DataCoordinator.t :=
  DataCoordinator.mk idle_sim (DataCoordinator.Cloud CloudSrc.init)
                     (CombinedState.default 0) false.

End Samples.


(** ** Vocabulary for the client's properties *)

Module StatusSpec.

Import ArduinoStatus.

(** The keys whose values go through [int]. *)
Definition int_fields : list string :=
  ["paddle"; "relay_main"; "gesture_flush_ms"; "gesture_pulse_min_ms";
   "gesture_pulse_max_ms"]%string.

Section WithRuntime.
Context {rt : PyRuntime}.

(** Every integer field present in the document holds a value [int]
    accepts. *)
Definition coercible (m : gmap string json) : Prop :=
  forall (key : string) (v : json),
    key ∈ int_fields -> m !! key = Some v ->
    exists n : Z, Builtins.int v = inr n.

(** [m.get(key, dflt)] *)
Definition field (m : gmap string json) (key : string) (dflt : json) : json :=
  option.default dflt (m !! key).

Definition int_value (v : json) : Z :=
  match Builtins.int v with inr n => n | inl _ => 0%Z end.

(** The status all of whose fields are read from the document [m]. *)
Definition decoded_status (m : gmap string json) : t :=
  mk (Builtins.str (field m "mode" (JStr "UNKNOWN")))
     (int_value (field m "paddle" (JInt 0)))
     (int_value (field m "relay_main" (JInt 0)))
     (Builtins.str (field m "override" (JStr "off")))
     (Builtins.bool (field m "flush_active" (JBool false)))
     (Builtins.bool (field m "gesture_enabled" (JBool true)))
     (int_value (field m "gesture_flush_ms" (JInt 0)))
     (int_value (field m "gesture_pulse_min_ms" (JInt 0)))
     (int_value (field m "gesture_pulse_max_ms" (JInt 0)))
     m None.

End WithRuntime.




End StatusSpec.


(** ** Vocabulary for the cloud source's properties *)

Module ReadingSpec.

Import ShotMetrics.

(** The fields the cloud dashboard has no value for are the same in the two
    readings. *)
Definition carried (previous r : t) : Prop :=
  weight_g r = weight_g previous /\
  flow_g_s r = flow_g_s previous /\
  pressure_bar r = pressure_bar previous /\
  group_temp_c r = group_temp_c previous /\
  scale_connected r = scale_connected previous.

(** Those fields are as in [ShotMetrics()]. *)
Definition blank (r : t) : Prop :=
  weight_g r = 0 /\
  flow_g_s r = 0 /\
  pressure_bar r = 0 /\
  group_temp_c r = 0 /\
  scale_connected r = false.

End ReadingSpec.

(** * The rest of [dashboard.py]: configuration, construction, status panel *)

From Stdlib Require Import Ascii.

(** ** Configuration helpers *)

(** The greatest nesting of objects in a value, through objects only; the
    measure of the inductions on configuration documents. *)
Fixpoint object_depth (v : json) : nat :=
  match v with
  | JObj m =>
      S (map_fold (fun _ member acc => Nat.max (object_depth member) acc)
                  0%nat m)
  | _ => 0%nat
  end.

Module Config.

(** [_default_config()] *)
Definition _default_config : gmap string json :=
  list_to_map
    [("refresh_rate_ms", JInt 200);
     ("arduino",
      JObj (list_to_map
              [("host", JStr "192.168.0.177");
               ("timeout", JFloat (6#10))]));
     ("shot",
      JObj (list_to_map
              [("target_weight_g", JFloat 36);
               ("simulate", JBool true)]));
     ("la_marzocco",
      JObj (list_to_map
              [("enable_cloud", JBool false);
               ("serial_number", JStr "");
               ("username", JStr "");
               ("password", JStr "");
               ("installation_id", JStr "");
               ("installation_secret_b64", JStr "");
               ("installation_private_key_b64", JStr "")]));
     ("ui",
      JObj (list_to_map
              [("fullscreen", JBool false);
               ("bg_color", JStr "#101010");
               ("fg_color", JStr "#F5F5F5");
               ("accent_color", JStr "#3FA7D6")]))]%string.

(** The loop of [_deep_merge] over the items of [overrides], on a [base]
    that it updates key by key.  The recursion descends into the values of
    [overrides], so it is written over the object that holds them. *)
Fixpoint merge_items (overrides : json) (base : gmap string json)
    {struct overrides} : gmap string json :=
  match overrides with
  | JObj items =>
      map_fold
        (fun key value acc =>
           match value, acc !! key with
           | JObj _, Some (JObj nested) =>
               <[key := JObj (merge_items value nested)]> acc
           | _, _ => <[key := value]> acc
           end)
        base items
  | _ => base
  end.

(** [_deep_merge(base, overrides)]: the merged [base], which is also what
    the caller's [base] holds afterwards. *)
Definition _deep_merge (base overrides : gmap string json)
    : gmap string json :=
  merge_items (JObj overrides) base.

(** The value [_deep_merge] stores under a key of [overrides]: the merge of
    the two tables when both sides hold one, the overriding value
    otherwise. *)
Definition merged (value : json) (existing : option json) : json :=
  match value, existing with
  | JObj over, Some (JObj nested) => JObj (_deep_merge nested over)
  | _, _ => value
  end.

(** What [load_config] finds at [CONFIG_PATH]: no file (or no TOML module),
    a file whose loading raised, or the loaded table. *)
Inductive config_file : Type :=
| NoFile
| LoadRaised (e : exc)
| Loaded (user_cfg : gmap string json).

(** [load_config()] *)
Definition load_config (file : config_file) : gmap string json :=
  match file with
  | Loaded user_cfg => _deep_merge _default_config user_cfg
  | _ => _default_config
  end.

End Config.

(** [config[k1][k2]...]: the value reached along a path of keys. *)
Fixpoint lookup_path (path : list string) (v : json) : option json :=
  match path with
  | [] => Some v
  | key :: rest =>
      match v with
      | JObj m =>
          match m !! key with
          | Some member => lookup_path rest member
          | None => None
          end
      | _ => None
      end
  end.

(** ** The client object and its URLs *)

Module PyStr.

(** [s.rstrip(c)] for a single character [c]. *)
Fixpoint rstrip (c : Ascii.ascii) (s : string) : string :=
  match s with
  | EmptyString => EmptyString
  | String a rest =>
      match rstrip c rest with
      | EmptyString =>
          if Ascii.eqb a c then EmptyString else String a EmptyString
      | kept => String a kept
      end
  end.

(** [sep.join(parts)] *)
Fixpoint join (sep : string) (parts : list string) : string :=
  match parts with
  | [] => EmptyString
  | [part] => part
  | part :: rest => part +:+ sep +:+ join sep rest
  end.

End PyStr.

Module ArduinoEndpoint.

(** The attributes of an [ArduinoClient]. *)
Record t : Type := mk {
  base_url : string;
  timeout : Q
}.

(** [ArduinoClient.__init__(base_url, timeout)] *)
Definition init (url : string) (timeout : Q) : t :=
  mk (PyStr.rstrip "/"%char url) timeout.

(** The URL [fetch_status] opens. *)
Definition status_url (c : t) : string := base_url c +:+ "/status".

(** The URL [send_override(value)] opens; whatever opening it raises is
    swallowed. *)
Definition override_url (c : t) (value : string) : string :=
  base_url c +:+ "/override?set=" +:+ value.

End ArduinoEndpoint.

(** ** Construction of the coordinator *)

Module Startup.

(** What [DataCoordinator.__init__] reads from its environment: the two
    clocks, and whether constructing the cloud source raised (a failed
    import, rejected key material). *)
Record env : Type := mk_env {
  monotonic : Q;
  wall : Q;
  cloud_ctor : option exc
}.

(** The client and the coordinator state [__init__] leaves behind. *)
Record built : Type := mk_built {
  arduino_client : ArduinoEndpoint.t;
  coordinator : DataCoordinator.t
}.

#[local] Instance result_ret : MRet result := fun A a => inr a.
#[local] Instance result_bind : MBind result :=
  fun A B k m => match m with inl e => inl e | inr a => k a end.

(** [config.get(name, {})] *)
Definition section (config : gmap string json) (name : string) : json :=
  option.default (JObj ∅) (config !! name).

(** The six settings the cloud source needs. *)
Definition credentials : list string :=
  ["username"; "password"; "serial_number"; "installation_id";
   "installation_secret_b64"; "installation_private_key_b64"]%string.

Section WithRuntime.
Context {rt : PyRuntime}.

(** The choice of [lm_source]. *)
Definition select_source (lm_cfg : json) (ctor : option exc)
    : result DataCoordinator.source :=
  enable ← Builtins.get lm_cfg "enable_cloud" JNull;
  if Builtins.bool enable then
    required ← mapM (fun key => Builtins.get lm_cfg key JNull) credentials;
    if forallb Builtins.bool required then
      match ctor with
      | None => mret (DataCoordinator.Cloud CloudSrc.init)
      | Some _ => mret DataCoordinator.Simulated
      end
    else mret DataCoordinator.Simulated
  else mret DataCoordinator.Simulated.

(** [DataCoordinator.__init__(config)], up to the start of the poll
    thread. *)
Definition __init__ (config : gmap string json) (e : env) : result built :=
  let arduino_cfg := section config "arduino" in
  host ← Builtins.get arduino_cfg "host" (JStr "192.168.0.177");
  let base_url := "http://" +:+ Builtins.str host in
  timeout_value ← Builtins.get arduino_cfg "timeout" (JFloat (6#10));
  timeout ← Builtins.float timeout_value;
  let client := ArduinoEndpoint.init base_url timeout in
  let shot_cfg := section config "shot" in
  target_value ← Builtins.get shot_cfg "target_weight_g" (JFloat 36);
  target_weight ← Builtins.float target_value;
  let sim := Sim.init target_weight (monotonic e) in
  lm_source ← select_source (section config "la_marzocco") (cloud_ctor e);
  mret (mk_built client
          (DataCoordinator.mk sim lm_source
             (CombinedState.default (wall e)) false)).

End WithRuntime.

(** The bound of true division: a quotient of integers whose magnitude is
    [2^1024 - 2^970] or more has no nearest [float], and [/] raises
    [OverflowError]. *)
Definition float_limit : Z := (2 ^ 1024 - 2 ^ 970)%Z.

(** [n / 1000] on an [int], [None] when it raises [OverflowError]. *)
Definition int_per_thousand (n : Z) : option Q :=
  if (float_limit * 1000 <=? Z.abs n)%Z then None
  else Some (inject_Z n / 1000).

(** The value of [poll_interval] in [_loop], which every [time.sleep] of
    the poll thread is called with; [None] when the division raises in the
    poll thread: a [TypeError] on a value that is not a number, an
    [OverflowError] on an integer too large for a [float]. *)
Definition poll_interval (config : gmap string json) : option Q :=
  match option.default (JInt 200) (config !! "refresh_rate_ms") with
  | JInt n => Py.max (1#10) <$> int_per_thousand n
  | JFloat q => Some (Py.max (1#10) (q / 1000))
  | JBool b => Some (Py.max (1#10) ((if b then 1 else 0) / 1000))
  | _ => None
  end.

End Startup.

(** ** The status panel of the window *)

Module DashboardApp.

(** The text [_refresh] puts in the status label. *)
Definition status_text (state : CombinedState.t) : string :=
  let error_part :=
    match ArduinoStatus.last_error (CombinedState.arduino state) with
    | Some e => if String.eqb e "" then [] else [e]
    | None => []
    end in
  let notes := ShotMetrics.notes (CombinedState.shot state) in
  let notes_part := if String.eqb notes "" then [] else [notes] in
  PyStr.join " | " (error_part ++ notes_part).

(** The text of the paddle label. *)
Definition paddle_text (state : CombinedState.t) : string :=
  "Paddle: " +:+
  (if (ArduinoStatus.paddle (CombinedState.arduino state) =? 0)%Z
   then "Open" else "Closed").

End DashboardApp.

(** ** Sample configurations *)

Module ConfigSamples.

(** A user file that only names another host: [[arduino] host = "10.0.0.5"]. *)
Definition host_only : gmap string json :=
  {[ "arduino"%string := JObj {[ "host"%string := JStr "10.0.0.5" ]} ]}.

(** A user file whose [arduino] entry is a number, not a table. *)
Definition arduino_number : gmap string json :=
  {[ "arduino"%string := JInt 5 ]}.

(** A user file that enables the cloud and gives all six credentials. *)
Definition cloud_enabled : gmap string json :=
  {[ "la_marzocco"%string :=
       JObj (list_to_map
               [("enable_cloud", JBool true);
                ("serial_number", JStr "MR000001");
                ("username", JStr "barista");
                ("password", JStr "secret");
                ("installation_id", JStr "id-1");
                ("installation_secret_b64", JStr "c2Vj");
                ("installation_private_key_b64", JStr "a2V5")]%string) ]}.

(** Construction at time 0 with a cloud constructor that succeeds. *)
Definition calm : Startup.env := Startup.mk_env 0 0 None.

End ConfigSamples.

(** ** Vocabulary for the construction's properties *)

Module StartupSpec.

Section WithRuntime.
Context {rt : PyRuntime}.

(** The [la_marzocco] section is a table that enables the cloud and gives
    a truthy value for each of the six credentials. *)
Definition cloud_configured (config : gmap string json) : Prop :=
  exists m : gmap string json,
    Startup.section config "la_marzocco" = JObj m /\
    Builtins.bool (option.default JNull (m !! "enable_cloud")) = true /\
    Forall (fun key => Builtins.bool (option.default JNull (m !! key)) = true)
           Startup.credentials.

End WithRuntime.

(** The sections [__init__] reads with [.get]. *)
Definition sections : list string := ["arduino"; "shot"; "la_marzocco"]%string.

(** The user file, if one was loaded, names none of [sections]. *)
Definition plain (file : Config.config_file) : Prop :=
  match file with
  | Config.Loaded user_cfg =>
      forall name, name ∈ sections -> user_cfg !! name = None
  | _ => True
  end.

End StartupSpec.

Module StartupSamples.

(** What [__init__] builds at time 0 from the defaults merged with
    [ConfigSamples.cloud_enabled]. *)
Definition cloud_built : Startup.built :=
  Startup.mk_built
    (ArduinoEndpoint.mk "http://192.168.0.177" (6#10))
    (DataCoordinator.mk (Sim.init 36 0)
       (DataCoordinator.Cloud CloudSrc.init)
       (CombinedState.default 0) false).

End StartupSamples.

(** ** Runs of the cloud source and sample cycles *)

Module CloudRun.

(** What happens to a cloud source after construction: a step of its
    background thread, or a call of [stop()]. *)
Inductive action : Type :=
| Thread (ev : CloudSrc.event)
| Halt.

Section WithRuntime.
Context {rt : PyRuntime}.

Definition act (a : action) (c : CloudSrc.t) : CloudSrc.t :=
  match a with
  | Thread ev => CloudSrc.loop_step ev c
  | Halt => CloudSrc.stop c
  end.

(** A run of actions, oldest first. *)
Definition run (actions : list action) (c : CloudSrc.t) : CloudSrc.t :=
  fold_left (fun acc a => act a acc) actions c.

End WithRuntime.

(** The type tag of a widget is one of those [_parse_dashboard] looks
    for. *)
Definition known_tag (tag : json) : bool :=
  Builtins.eq_str tag "CM_MACHINE_STATUS"
  || Builtins.eq_str tag "MachineStatus"
  || Builtins.eq_str tag "CM_BREW_BY_WEIGHT_DOSES"
  || Builtins.eq_str tag "BrewByWeightDoses"
  || Builtins.eq_str tag "CM_COFFEE_BOILER"
  || Builtins.eq_str tag "CoffeeBoiler".

(** The forms the note of a published reading takes. *)
Definition note_form (n : string) : Prop :=
  n = "Waiting for cloud..."%string \/
  n = "Cloud dashboard"%string \/
  n = "No dashboard data yet"%string \/
  (exists text : string, n = "Cloud error: " +:+ text) \/
  (exists text : string, n = "Cloud disabled: " +:+ text).

End CloudRun.

Module CycleSamples.

(** A coordinator on the simulated source, two seconds into a shot. *)
Definition brewing_coordinator : DataCoordinator.t :=
  DataCoordinator.mk Samples.brewing_sim DataCoordinator.Simulated
                     (CombinedState.default 0) false.

(** A coordinator on the simulated source, idle. *)
Definition idle_coordinator : DataCoordinator.t :=
  DataCoordinator.mk Samples.idle_sim DataCoordinator.Simulated
                     (CombinedState.default 0) false.

(** A coordinator whose cloud source has polled a dashboard. *)
Definition polled_coordinator : DataCoordinator.t :=
  DataCoordinator.mk Samples.idle_sim
                     (DataCoordinator.Cloud Samples.polled_cloud)
                     (CombinedState.default 0) false.

(** A cycle at time 4 to 5 in which the status request times out. *)
Definition failed_cycle : DataCoordinator.cycle_input :=
  DataCoordinator.mk_cycle_input
    (ArduinoClient.Raised (mk_exc URLError "timed out"))
    4 Samples.later_tick 5 1000.

(** A cycle at time 4 to 5 that receives [Samples.sparse_payload], whose
    paddle is 1. *)
Definition closed_cycle : DataCoordinator.cycle_input :=
  DataCoordinator.mk_cycle_input
    (ArduinoClient.Decoded (JObj Samples.sparse_payload))
    4 Samples.later_tick 5 1000.

(** A widget of a type the parser does not look for. *)
Definition steam_widget : json :=
  JObj (<["code" := JStr "CM_STEAM_BOILER"]>
          (<["output" := JObj (<["target" := JInt 120]> ∅)]> ∅)).

End CycleSamples.

Module ParseSamples.

(** The coffee-boiler widget of [Samples.boiler_dashboard]. *)
Definition boiler_widget : json :=
  JObj (<["code" := JStr "CM_COFFEE_BOILER"]>
          (<["output" := JObj (<["target" := JInt 94]> ∅)]> ∅)).

(** The members of [CycleSamples.steam_widget]. *)
Definition steam_members : gmap string json :=
  <["code" := JStr "CM_STEAM_BOILER"]>
    (<["output" := JObj (<["target" := JInt 120]> ∅)]> ∅).

End ParseSamples.

Module PaddleSamples.

(** [{"paddle": 2}] *)
Definition paddle_two : gmap string json := {[ "paddle"%string := JInt 2 ]}.

(** A cycle at time 4 to 5 that receives [paddle_two]. *)
Definition odd_cycle : DataCoordinator.cycle_input :=
  DataCoordinator.mk_cycle_input
    (ArduinoClient.Decoded (JObj paddle_two))
    4 Samples.later_tick 5 1000.

End PaddleSamples.

(** ** The statement at which [fetch_status] fails *)

Module FailureSpec.
Section WithRuntime.
Context {rt : PyRuntime}.




End WithRuntime.
End FailureSpec.

Module DecaySamples.

(** A shot that starts at 1.0 s, 0.4 s after an idle tick, and is ended at
    1.2 s after a single tick at 1.1 s with a flow jitter of 0.036: it
    leaves 0.0505 g on the scale. *)
Definition short_shot : Sim.t :=
  Sim.notify_arduino (12#10) (Samples.paddle_at 0)
    (Sim._tick (Sim.mk_draws (11#10) (36#1000) 0 0 0)
       (Sim.notify_arduino 1 (Samples.paddle_at 1)
          (Sim._tick (Sim.mk_draws (6#10) 0 0 0 0) Samples.idle_sim))).

(** Ten ticks, one every 0.2 s from 2.0 s on. *)
Definition ten_ticks : list Sim.draws :=
  (fun k : nat =>
     Sim.mk_draws (2 + inject_Z (Z.of_nat k) * (2#10)) 0 0 0 0) <$> seq 0 10.

End DecaySamples.

(** * Properties *)

(** ** Python numerics *)



Lemma ltb_lt (a b : Q) : Py.ltb a b = true <-> a < b.
Proof.
  unfold Py.ltb. rewrite Qlt_alt.
  destruct (a ?= b); split; congruence.
Qed.

Lemma ltb_ge (a b : Q) : Py.ltb a b = false <-> b <= a.
Proof.
  rewrite <- not_true_iff_false, ltb_lt. split.
  - apply Qnot_lt_le.
  - intros H1 H2. exact (Qlt_not_le _ _ H2 H1).
Qed.

Lemma max_cases (a b : Q) :
  (a < b /\ Py.max a b = b) \/ (b <= a /\ Py.max a b = a).
Proof.
  unfold Py.max. destruct (Py.ltb a b) eqn:E.
  - left. split; [by apply ltb_lt | done].
  - right. split; [by apply ltb_ge | done].
Qed.

Lemma min_cases (a b : Q) :
  (b < a /\ Py.min a b = b) \/ (a <= b /\ Py.min a b = a).
Proof.
  unfold Py.min. destruct (Py.ltb b a) eqn:E.
  - left. split; [by apply ltb_lt | done].
  - right. split; [by apply ltb_ge | done].
Qed.

Lemma max_ge_l (a b : Q) : a <= Py.max a b.
Proof. destruct (max_cases a b) as [[? ->]|[? ->]]; lra. Qed.

Lemma max_ge_r (a b : Q) : b <= Py.max a b.
Proof. destruct (max_cases a b) as [[? ->]|[? ->]]; lra. Qed.

Lemma max_mono_r (a b c : Q) : b <= c -> Py.max a b <= Py.max a c.
Proof.
  intros H.
  destruct (max_cases a b) as [[? ->]|[? ->]];
    destruct (max_cases a c) as [[? ->]|[? ->]]; lra.
Qed.

Lemma min_le_r (a b : Q) : Py.min a b <= b.
Proof. destruct (min_cases a b) as [[? ->]|[? ->]]; lra. Qed.



Lemma floor_bounds (x : Q) :
  inject_Z (Qfloor x) <= x /\ x < inject_Z (Qfloor x) + 1.
Proof.
  split; [apply Qfloor_le |].
  pose proof (Qlt_floor x) as H.
  rewrite inject_Z_plus in H. exact H.
Qed.

Lemma round_half_even_bounds (x : Q) :
  (Qfloor x <= Py.round_half_even x <= Qfloor x + 1)%Z.
Proof.
  unfold Py.round_half_even.
  destruct (_ ?= _); [destruct (Z.even _) | |]; lia.
Qed.

Lemma round_half_even_mono (x y : Q) :
  x <= y -> (Py.round_half_even x <= Py.round_half_even y)%Z.
Proof.
  intros Hxy.
  pose proof (Qfloor_resp_le _ _ Hxy) as Hf.
  destruct (Z.eq_dec (Qfloor x) (Qfloor y)) as [E|NE].
  - unfold Py.round_half_even. rewrite E.
    destruct (Qcompare_spec (x - inject_Z (Qfloor y)) (1#2)) as [H1|H1|H1];
      destruct (Qcompare_spec (y - inject_Z (Qfloor y)) (1#2)) as [H2|H2|H2];
      try destruct (Z.even _); try lia; exfalso; lra.
  - pose proof (round_half_even_bounds x).
    pose proof (round_half_even_bounds y).
    lia.
Qed.

Lemma scale_pos (n : nat) : 0 < inject_Z (10 ^ Z.of_nat n).
Proof.
  replace 0 with (inject_Z 0) by reflexivity.
  rewrite <- Zlt_Qlt. apply Z.pow_pos_nonneg; lia.
Qed.

Lemma round_mono (x y : Q) (n : nat) :
  x <= y -> Py.round x n <= Py.round y n.
Proof.
  intros Hxy. unfold Py.round.
  pose proof (scale_pos n) as Hs.
  set (s := inject_Z (10 ^ Z.of_nat n)) in *.
  apply Qmult_le_compat_r.
  - rewrite <- Zle_Qle. apply round_half_even_mono.
    apply Qmult_le_compat_r; lra.
  - apply Qlt_le_weak, Qinv_lt_0_compat, Hs.
Qed.

Lemma round_small (w : Q) : 0 <= w -> w <= 1#20 -> Py.round w 1 == 0.
Proof.
  intros H0 H1. unfold Py.round.
  change (inject_Z (10 ^ Z.of_nat 1)) with 10.
  assert (Hz : Py.round_half_even (w * 10) = 0%Z).
  { unfold Py.round_half_even.
    destruct (floor_bounds (w * 10)) as [Hl Hu].
    assert (Hf : Qfloor (w * 10) = 0%Z).
    { assert (Qfloor (w * 10) < 1)%Z.
      { rewrite Zlt_Qlt. change (inject_Z 1) with 1. lra. }
      assert (-1 < Qfloor (w * 10))%Z.
      { rewrite Zlt_Qlt. change (inject_Z (-1)) with (-1). lra. }
      lia. }
    rewrite Hf in *. change (inject_Z 0) with 0.
    destruct (Qcompare_spec (w * 10 - 0) (1#2)); [done | done | lra]. }
  rewrite Hz. reflexivity.
Qed.

Lemma int_of_float_bounds (x : Q) :
  0 <= x -> (0 <= Py.int_of_float x)%Z /\ inject_Z (Py.int_of_float x) <= x.
Proof.
  intros Hx. unfold Py.int_of_float. destruct x as [n d].
  assert (Hn : (0 <= n)%Z) by (unfold Qle in Hx; simpl in Hx; lia).
  cbn [Qnum Qden]. rewrite Z.quot_div_nonneg by lia.
  split.
  - apply Z.div_pos; lia.
  - apply (Qfloor_le (n # d)).
Qed.

(** ** The simulated source *)

Lemma ticks_snoc (ds : list Sim.draws) (d : Sim.draws) (s : Sim.t) :
  Sim.ticks (ds ++ [d]) s = Sim._tick d (Sim.ticks ds s).
Proof. unfold Sim.ticks. by rewrite fold_left_app. Qed.

Lemma tick_dt_pos (d : Sim.draws) (s : Sim.t) :
  0 < Py.max (1#1000) (Sim.now d - Sim._last_update s).
Proof.
  pose proof (max_ge_l (1#1000) (Sim.now d - Sim._last_update s)). lra.
Qed.

Lemma tick_active (d : Sim.draws) (s : Sim.t) :
  Sim._shot_active s = true ->
  Sim._shot_active (Sim._tick d s) = true /\
  Sim._weight s <= Sim._weight (Sim._tick d s).
Proof.
  intros Ha. unfold Sim._tick. rewrite Ha. cbn.
  split; [done |].
  pose proof (tick_dt_pos d s) as Hdt.
  match goal with |- _ <= _ + Py.max 0 ?f * _ =>
    pose proof (max_ge_l 0 f) as Hflow end.
  nra.
Qed.

Lemma tick_idle (d : Sim.draws) (s : Sim.t) :
  Sim._shot_active s = false ->
  0 <= Sim._weight s ->
  let s' := Sim._tick d s in
  Sim._shot_active s' = false /\
  Sim._flow s' = Sim._flow s * (9#10) /\
  Sim._pressure s' = Sim._pressure s * (8#10) /\
  0 <= Sim._weight s' /\
  Sim._weight s' <= Sim._weight s * (999#1000) /\
  (Sim._weight s * (999#1000) < 5#100 -> Sim._weight s' = 0) /\
  (5#100 <= Sim._weight s * (999#1000) ->
   Sim._weight s' = Sim._weight s * (999#1000)).
Proof.
  intros Hi Hw. unfold Sim._tick. rewrite Hi. cbn.
  destruct (Py.ltb (Sim._weight s * (999#1000)) (5#100)) eqn:E.
  - apply ltb_lt in E. repeat split; try done; try lra.
  - apply ltb_ge in E. repeat split; try done; try lra.
Qed.

Lemma weight_nonneg (s : Sim.t) : sim_reachable s -> 0 <= Sim._weight s.
Proof.
  induction 1 as [target now | clock status s _ IH | d s _ IH].
  - cbn. lra.
  - unfold Sim.notify_arduino.
    repeat (destruct (_ && _); cbn); lra.
  - destruct (Sim._shot_active s) eqn:E.
    + pose proof (tick_active d s E). lra.
    + pose proof (tick_idle d s E IH). cbn in *. tauto.
Qed.

Lemma pow_succ (q : Q) (n : nat) :
  q ^ Z.of_nat (S n) == q ^ Z.of_nat n * q.
Proof.
  rewrite Nat2Z.inj_succ. unfold Z.succ.
  rewrite Qpower_plus' by lia. reflexivity.
Qed.

Lemma idle_ticks (ds : list Sim.draws) : forall s : Sim.t,
  Sim._shot_active s = false ->
  0 <= Sim._weight s ->
  let a := Sim.ticks ds s in
  let n := Z.of_nat (length ds) in
  Sim._shot_active a = false /\
  Sim._flow a == Sim._flow s * (9#10) ^ n /\
  Sim._pressure a == Sim._pressure s * (8#10) ^ n /\
  0 <= Sim._weight a /\
  Sim._weight a <= Sim._weight s * (999#1000) ^ n.
Proof.
  induction ds as [|d ds IH] using rev_ind; intros s Hi Hw.
  - cbn. change (Z.of_nat 0) with 0%Z. cbn [Qpower].
    repeat split; try done; try lra; ring.
  - cbn zeta. rewrite ticks_snoc, length_app, Nat.add_1_r.
    destruct (IH s Hi Hw) as (Ha & Hf & Hp & Hw0 & Hw1).
    destruct (tick_idle d _ Ha Hw0) as (Ha' & Hf' & Hp' & Hw0' & Hw1' & _).
    rewrite !pow_succ.
    split; [done |].
    split; [rewrite Hf', Hf; ring |].
    split; [rewrite Hp', Hp; ring |].
    split; [done |].
    nra.
Qed.

(** C10. [notify_arduino] is idempotent: notifying twice in a row with the
    same status, whatever the clock reads, leaves the simulator as one
    notification does; and a paddle value other than 0 and 1 leaves the
    simulator unchanged. *)
Theorem notify_arduino_idempotent :
  (forall (clock1 clock2 : Q) (status : ArduinoStatus.t) (s : Sim.t),
     Sim.notify_arduino clock2 status (Sim.notify_arduino clock1 status s)
     = Sim.notify_arduino clock1 status s) /\
  (forall (clock : Q) (status : ArduinoStatus.t) (s : Sim.t),
     ArduinoStatus.paddle status <> 0%Z ->
     ArduinoStatus.paddle status <> 1%Z ->
     Sim.notify_arduino clock status s = s).
Proof.
  split.
  - intros clock1 clock2 status s. unfold Sim.notify_arduino.
    destruct (ArduinoStatus.paddle status =? 1)%Z eqn:E1;
      destruct (ArduinoStatus.paddle status =? 0)%Z eqn:E0;
      destruct (Sim._shot_active s) eqn:Ea;
      cbn; rewrite ?E1, ?E0, ?Ea; cbn; try reflexivity.
    all: apply Z.eqb_eq in E1, E0; congruence.
  - intros clock status s H0 H1. unfold Sim.notify_arduino.
    apply Z.eqb_neq in H0, H1. by rewrite H0, H1.
Qed.

Lemma notify_arduino_idempotent_witness :
  Sim.notify_arduino 5 (Samples.paddle_at 1)
    (Sim.notify_arduino 1 (Samples.paddle_at 1) Samples.idle_sim)
  = Sim.notify_arduino 1 (Samples.paddle_at 1) Samples.idle_sim /\
  Sim.notify_arduino 5 (Samples.paddle_at 2) Samples.brewing_sim
  = Samples.brewing_sim.
Proof.
  split.
  - apply (proj1 notify_arduino_idempotent).
  - apply (proj2 notify_arduino_idempotent); cbn; lia.
Defined.

(** C5. While a shot is active, whatever the clock reads and whatever is
    drawn, no tick lowers the accumulated weight, and the [weight_g] of a
    snapshot is at least the [weight_g] of the snapshot before it. *)
Theorem weight_monotone_while_brewing
    (s : Sim.t) (ds : list Sim.draws) (d : Sim.draws) (clock clock' : Q) :
  Sim._shot_active s = true ->
  Sim._shot_active (Sim.ticks ds s) = true /\
  Sim._weight s <= Sim._weight (Sim.ticks ds s) /\
  Sim._weight (Sim.ticks ds s) <= Sim._weight (Sim.ticks (ds ++ [d]) s) /\
  ShotMetrics.weight_g (Sim.reading clock (Sim.ticks ds s))
  <= ShotMetrics.weight_g (snd (Sim.get_snapshot d clock' (Sim.ticks ds s))).
Proof.
  intros Ha.
  assert (Hrun : Sim._shot_active (Sim.ticks ds s) = true /\
                 Sim._weight s <= Sim._weight (Sim.ticks ds s)).
  { induction ds as [|e ds IH] using rev_ind.
    - cbn. split; [done | lra].
    - rewrite ticks_snoc. destruct IH as [IHa IHw].
      destruct (tick_active e _ IHa). split; [done | lra]. }
  destruct Hrun as [Hact Hw].
  destruct (tick_active d _ Hact) as [_ Hstep].
  rewrite ticks_snoc. repeat split; try done.
  cbn. by apply max_mono_r, round_mono.
Qed.

Lemma weight_monotone_while_brewing_witness :
  Sim._shot_active Samples.brewing_sim = true /\
  Sim._weight Samples.brewing_sim
  <= Sim._weight (Sim.ticks [Samples.later_tick] Samples.brewing_sim).
Proof.
  split; [reflexivity |].
  apply (weight_monotone_while_brewing
           Samples.brewing_sim [Samples.later_tick] Samples.later_tick 5 5).
  reflexivity.
Defined.

(** C6. After a notification with paddle 0 during a shot the flow is 0 and
    the source is idle; from then on every tick multiplies the flow by 0.9
    and the pressure by 0.8, never raises the weight, which is multiplied by
    0.999 and replaced by exactly 0 once that product is below 0.05. *)
Theorem idle_decay
    (s0 : Sim.t) (clock : Q) (status : ArduinoStatus.t)
    (ds : list Sim.draws) (d : Sim.draws) :
  sim_reachable s0 ->
  Sim._shot_active s0 = true ->
  ArduinoStatus.paddle status = 0%Z ->
  let s1 := Sim.notify_arduino clock status s0 in
  let a := Sim.ticks ds s1 in
  let b := Sim._tick d a in
  let n := Z.of_nat (length ds) in
  Sim._shot_active s1 = false /\ Sim._flow s1 = 0 /\
  Sim._shot_active b = false /\
  Sim._flow b = Sim._flow a * (9#10) /\
  Sim._flow a == Sim._flow s1 * (9#10) ^ n /\
  Sim._pressure b = Sim._pressure a * (8#10) /\
  Sim._pressure a == Sim._pressure s0 * (8#10) ^ n /\
  0 <= Sim._weight b /\
  Sim._weight b <= Sim._weight a /\
  Sim._weight a <= Sim._weight s0 * (999#1000) ^ n /\
  (Sim._weight a * (999#1000) < 5#100 -> Sim._weight b = 0) /\
  (5#100 <= Sim._weight a * (999#1000) ->
   Sim._weight b = Sim._weight a * (999#1000)).
Proof.
  intros Hr Ha Hp s1 a b n.
  pose proof (weight_nonneg s0 Hr) as Hw0.
  assert (Hs1 : s1 = Sim.mk (Sim.target_weight_g s0) false (Sim._shot_start s0)
                       (Sim._weight s0) 0 (Sim._pressure s0)
                       (Sim._boiler_temp s0) (Sim._group_temp s0)
                       (Sim._last_update s0)).
  { subst s1. unfold Sim.notify_arduino. by rewrite Hp, Ha. }
  assert (Hi1 : Sim._shot_active s1 = false) by by rewrite Hs1.
  assert (Hw1 : 0 <= Sim._weight s1) by by rewrite Hs1.
  destruct (idle_ticks ds s1 Hi1 Hw1) as (Hia & Hfa & Hpa & Hwa0 & Hwa).
  fold a n in Hia, Hfa, Hpa, Hwa0, Hwa.
  destruct (tick_idle d a Hia Hwa0) as (Hib & Hfb & Hpb & Hwb0 & Hwb & Hz & Hk).
  fold b in Hib, Hfb, Hpb, Hwb0, Hwb, Hz, Hk.
  assert (Hp1 : Sim._pressure s1 = Sim._pressure s0) by by rewrite Hs1.
  assert (Hww : Sim._weight s1 = Sim._weight s0) by by rewrite Hs1.
  rewrite Hp1 in Hpa. rewrite Hww in Hwa.
  repeat split; try done.
  - by rewrite Hs1.
  - lra.
Qed.

Lemma idle_decay_witness :
  sim_reachable Samples.brewing_sim /\
  Sim._shot_active Samples.brewing_sim = true /\
  Sim._weight
    (Sim._tick Samples.later_tick
       (Sim.notify_arduino 4 (Samples.paddle_at 0) Samples.brewing_sim))
  <= Sim._weight
       (Sim.notify_arduino 4 (Samples.paddle_at 0) Samples.brewing_sim).
Proof.
  assert (Hr : sim_reachable Samples.brewing_sim)
    by (unfold Samples.brewing_sim, Samples.idle_sim; repeat constructor).
  split; [exact Hr |]. split; [reflexivity |].
  apply (idle_decay Samples.brewing_sim 4 (Samples.paddle_at 0) []
                    Samples.later_tick Hr); reflexivity.
Defined.

Lemma int_of_float_above (x : Q) :
  0 <= x -> x < inject_Z (Py.int_of_float x) + 1.
Proof.
  intros Hx. unfold Py.int_of_float. destruct x as [n d].
  assert (Hn : (0 <= n)%Z) by (unfold Qle in Hx; simpl in Hx; lia).
  cbn [Qnum Qden]. rewrite Z.quot_div_nonneg by lia.
  pose proof (Qlt_floor (n # d)) as H.
  rewrite inject_Z_plus in H. exact H.
Qed.

(** The weight after the first tick of a shot: what the flow of that tick,
    at most [0.65 e + u] with [e] the time since the shot started and [u]
    the jitter drawn, adds over the clamped time since the previous tick. *)
Lemma first_tick_weight (start : Q) (status : ArduinoStatus.t)
    (d : Sim.draws) (s : Sim.t) :
  Sim._shot_active s = false ->
  ArduinoStatus.paddle status = 1%Z ->
  start <= Sim.now d ->
  let w := Sim._weight (Sim._tick d (Sim.notify_arduino start status s)) in
  0 <= w /\
  forall bound : Q,
    0 <= bound ->
    ((13#20) * (Sim.now d - start) + Sim.u_flow d)
    * Py.max (1#1000) (Sim.now d - Sim._last_update s) <= bound ->
    w <= bound.
Proof.
  intros Hi Hp Hs. unfold Sim.notify_arduino. rewrite Hp, Hi. cbn.
  set (e := Sim.now d - start).
  set (dt := Py.max (1#1000) (Sim.now d - Sim._last_update s)).
  set (cap := Py.max 1 (Sim.target_weight_g s * (11#10))).
  assert (Hdt : 0 < dt) by apply tick_dt_pos.
  assert (He : 0 <= e) by (subst e; lra).
  assert (Hz : 0 / cap == 0) by (unfold Qdiv; ring).
  assert (Hdecay : Py.max (2#10) (1 - 0 / cap) == 1).
  { destruct (max_cases (2#10) (1 - 0 / cap)) as [[_ ->]|[H _]]; lra. }
  assert (E4 : e / 4 == e * (1#4)) by (unfold Qdiv; reflexivity).
  assert (Hramp : 0 <= Py.min 1 (e / 4) <= e / 4).
  { split; [| apply min_le_r].
    destruct (min_cases 1 (e / 4)) as [[_ ->]|[_ ->]]; lra. }
  set (ramp := Py.min 1 (e / 4)) in *.
  set (decay := Py.max (2#10) (1 - 0 / cap)) in *.
  set (raw_flow := (26#10) * ramp * decay + Sim.u_flow d).
  assert (Hraw : raw_flow <= (13#20) * e + Sim.u_flow d).
  { subst raw_flow.
    assert (E : (26#10) * ramp * decay == (26#10) * ramp)
      by (rewrite Hdecay; ring).
    lra. }
  destruct (max_cases 0 raw_flow) as [[H ->]|[H ->]].
  - split; [nra |]. intros bound Hb Hle. nra.
  - split; [nra |]. intros bound Hb Hle. nra.
Qed.

(** C4. A notification with paddle 1 while idle, followed at once by a
    snapshot: the reading says BREWING; its shot time is a whole number of
    milliseconds, not negative and within one millisecond and one part in
    10^9 of the time between the notification and the snapshot; and its
    weight is 0 provided the first tick is short enough, namely
    (0.65 e + u) dt <= 0.049 with [e] the time from the notification to the
    tick, [u] the flow jitter drawn and [dt] the clamped time since the
    previous tick.  The accumulated weight then stays under 0.05, the point
    from which a weight is reported as 0.1, by a margin of 0.001. *)
Theorem shot_start_snapshot
    (s : Sim.t) (start clock : Q) (status : ArduinoStatus.t) (d : Sim.draws) :
  Sim._shot_active s = false ->
  ArduinoStatus.paddle status = 1%Z ->
  start <= Sim.now d ->
  Sim.now d <= clock ->
  let r := snd (Sim.get_snapshot d clock (Sim.notify_arduino start status s)) in
  let elapsed_ms := (clock - start) * 1000 in
  ShotMetrics.brew_state r = JStr "BREWING" /\
  (0 <= ShotMetrics.shot_time_ms r)%Z /\
  inject_Z (ShotMetrics.shot_time_ms r)
  <= elapsed_ms + elapsed_ms / 1000000000 /\
  elapsed_ms - elapsed_ms / 1000000000 - 1
  <= inject_Z (ShotMetrics.shot_time_ms r) /\
  (((13#20) * (Sim.now d - start) + Sim.u_flow d)
   * Py.max (1#1000) (Sim.now d - Sim._last_update s) <= 49#1000 ->
   Sim._weight (Sim._tick d (Sim.notify_arduino start status s)) < 1#20 /\
   ShotMetrics.weight_g r == 0).
Proof.
  intros Hi Hp Hs Hc r elapsed_ms.
  destruct (first_tick_weight start status d s Hi Hp Hs) as [Hw0 Hw1].
  subst r. unfold Sim.get_snapshot. cbn [snd].
  set (s' := Sim._tick d (Sim.notify_arduino start status s)) in *.
  assert (Hs' : Sim._shot_active s' = true /\ Sim._shot_start s' = start).
  { subst s'. unfold Sim.notify_arduino. rewrite Hp, Hi. cbn. done. }
  destruct Hs' as [Ha Hst].
  unfold Sim.reading. rewrite Ha, Hst. cbn.
  fold elapsed_ms.
  assert (He : 0 <= elapsed_ms) by (subst elapsed_ms; nra).
  destruct (int_of_float_bounds elapsed_ms He) as [Hi0 Hi1].
  pose proof (int_of_float_above elapsed_ms He) as Hi2.
  assert (Hppb : 0 <= elapsed_ms / 1000000000).
  { unfold Qdiv. change (/ 1000000000) with (1 # 1000000000). lra. }
  split; [done |]. split; [done |]. split; [lra |]. split; [lra |].
  intros Hsmall.
  assert (Hw : Sim._weight s' <= 49#1000) by (apply Hw1; [lra | exact Hsmall]).
  split; [lra |].
  pose proof (round_small (Sim._weight s') Hw0) as Hr.
  destruct (max_cases 0 (Py.round (Sim._weight s') 1)) as [[_ ->]|[_ ->]].
  - apply Hr. lra.
  - reflexivity.
Qed.

Lemma shot_start_snapshot_witness :
  Sim._shot_active Samples.idle_sim = false /\
  ((13#20) * (Sim.now Samples.prompt_first_tick - (2#10))
   + Sim.u_flow Samples.prompt_first_tick)
  * Py.max (1#1000)
      (Sim.now Samples.prompt_first_tick - Sim._last_update Samples.idle_sim)
  <= 49#1000 /\
  ShotMetrics.weight_g
    (snd (Sim.get_snapshot Samples.prompt_first_tick (202#1000)
            (Sim.notify_arduino (2#10) (Samples.paddle_at 1) Samples.idle_sim)))
  == 0.
Proof.
  split; [reflexivity |].
  split; [vm_compute; discriminate |].
  apply (shot_start_snapshot Samples.idle_sim (2#10) (202#1000)
           (Samples.paddle_at 1) Samples.prompt_first_tick);
    try reflexivity; vm_compute; discriminate.
Defined.

(** With the previous tick 1.001 s before the first tick of the shot and a
    flow jitter of 0.08, the first snapshot already reports 0.1 g. *)
Lemma shot_start_slow_tick_counterexample :
  Sim._shot_active Samples.idle_sim = false /\
  ArduinoStatus.paddle (Samples.paddle_at 1) = 1%Z /\
  Sim.draws_in_range Samples.slow_first_tick /\
  let r := snd (Sim.get_snapshot Samples.slow_first_tick (1002#1000)
                  (Sim.notify_arduino 1 (Samples.paddle_at 1) Samples.idle_sim))
  in ShotMetrics.brew_state r = JStr "BREWING" /\
     ShotMetrics.shot_time_ms r = 2%Z /\
     ShotMetrics.weight_g r == 1#10 /\
     ~ ShotMetrics.weight_g r == 0.
Proof.
  split; [reflexivity |]. split; [reflexivity |].
  split; [unfold Sim.draws_in_range; cbn; lra |].
  cbn zeta. split; [reflexivity |]. split; [reflexivity |].
  split; [reflexivity |].
  intros H. vm_compute in H. discriminate H.
Qed.

(** ** The Arduino client *)

Section ClientFacts.
Context {rt : PyRuntime}.

Import StatusSpec.

Lemma int_value_ok (v : json) (n : Z) :
  Builtins.int v = inr n -> int_value v = n.
Proof. intros H. unfold int_value. by rewrite H. Qed.

Lemma coercible_field (m : gmap string json) (key : string) :
  coercible m -> key ∈ int_fields ->
  exists n : Z, Builtins.int (field m key (JInt 0)) = inr n.
Proof.
  intros Hc Hk. unfold field.
  destruct (m !! key) as [v|] eqn:E; cbn.
  - by apply (Hc key).
  - by exists 0%Z.
Qed.

Lemma fetch_status_decoded (m : gmap string json) :
  coercible m ->
  ArduinoClient.fetch_status (ArduinoClient.Decoded (JObj m))
  = decoded_status m.
Proof.
  intros Hc.
  destruct (coercible_field m "paddle" Hc) as [n1 E1];
    [unfold int_fields; set_solver |].
  destruct (coercible_field m "relay_main" Hc) as [n2 E2];
    [unfold int_fields; set_solver |].
  destruct (coercible_field m "gesture_flush_ms" Hc) as [n3 E3];
    [unfold int_fields; set_solver |].
  destruct (coercible_field m "gesture_pulse_min_ms" Hc) as [n4 E4];
    [unfold int_fields; set_solver |].
  destruct (coercible_field m "gesture_pulse_max_ms" Hc) as [n5 E5];
    [unfold int_fields; set_solver |].
  unfold decoded_status.
  rewrite (int_value_ok _ _ E1), (int_value_ok _ _ E2), (int_value_ok _ _ E3),
    (int_value_ok _ _ E4), (int_value_ok _ _ E5).
  unfold field in *.
  unfold ArduinoClient.fetch_status, ArduinoClient.try_block,
    ArduinoClient.assign_fields, mbind, ArduinoClient.action_bind,
    ArduinoClient.bind, ArduinoClient.eval, ArduinoClient.assign,
    Builtins.get.
  rewrite E1, E2, E3, E4, E5. reflexivity.
Qed.








End ClientFacts.





(** ** The cloud source *)

Section CloudFacts.
Context {rt : PyRuntime}.

Import ReadingSpec.

Lemma parse_carries
    (time_now : Q) (data : json) (previous snap : ShotMetrics.t) :
  CloudSrc._parse_dashboard time_now (Some data) previous = inr snap ->
  carried previous snap /\ ShotMetrics.notes snap = "Cloud dashboard"%string.
Proof.
  unfold CloudSrc._parse_dashboard, mbind, mret,
    CloudSrc.result_bind, CloudSrc.result_ret.
  intros H. repeat case_match; simplify_eq; by repeat split.
Qed.

Lemma blank_with_notes (n : string) : blank (ShotMetrics.with_notes n).
Proof. by repeat split. Qed.

Lemma carried_blank (previous r : ShotMetrics.t) :
  blank previous -> carried previous r -> blank r.
Proof.
  intros (B1 & B2 & B3 & B4 & B5) (C1 & C2 & C3 & C4 & C5).
  unfold blank. by rewrite C1, C2, C3, C4, C5.
Qed.

Lemma blank_carried (previous r : ShotMetrics.t) :
  blank previous -> blank r -> carried previous r.
Proof.
  intros (B1 & B2 & B3 & B4 & B5) (C1 & C2 & C3 & C4 & C5).
  unfold carried. by rewrite B1, B2, B3, B4, B5.
Qed.

Lemma poll_once_cases
    (time_now : Q) (o : CloudSrc.poll_outcome) (c : CloudSrc.t) :
  (exists data : json,
     o = CloudSrc.PollDone (Some data) /\
     CloudSrc._parse_dashboard time_now (Some data) (CloudSrc._latest c)
     = inr (CloudSrc.poll_once time_now o c)) \/
  (exists n : string,
     CloudSrc.poll_once time_now o c = ShotMetrics.with_notes n /\
     n <> "Cloud dashboard"%string).
Proof.
  unfold CloudSrc.poll_once.
  destruct o as [e | [data|]].
  - right. by eexists.
  - destruct (CloudSrc._parse_dashboard _ _ _) as [e|snap] eqn:E.
    + right. by eexists.
    + left. by exists data.
  - right. by eexists.
Qed.

Lemma poll_once_blank
    (time_now : Q) (o : CloudSrc.poll_outcome) (c : CloudSrc.t) :
  blank (CloudSrc._latest c) -> blank (CloudSrc.poll_once time_now o c).
Proof.
  intros Hb.
  destruct (poll_once_cases time_now o c) as [(data & _ & E) | (n & -> & _)].
  - apply parse_carries in E as [E _]. by apply (carried_blank _ _ Hb).
  - apply blank_with_notes.
Qed.

Lemma reachable_blank (c : CloudSrc.t) :
  cloud_reachable c -> blank (CloudSrc._latest c).
Proof.
  induction 1 as [| ev c _ IH | c _ IH].
  - apply blank_with_notes.
  - unfold CloudSrc.loop_step.
    destruct (CloudSrc.phase c), ev as [[|e] | time_now o]; cbn; try done.
    destruct (CloudSrc._stop c); cbn; [done |]. by apply poll_once_blank.
  - exact IH.
Qed.

(** C3, as the code has it.  The reading a poll cycle publishes is the one
    its loop body computes.  A cycle that parses a dashboard publishes a
    reading whose weight, flow, pressure, group temperature and scale flag
    are those of the reading published before.  A cycle that raises, or
    finds no dashboard, publishes [ShotMetrics(notes=...)]: every field at
    its default and only the note set.  In every state the source reaches
    the five fields hold their defaults, before and after any cycle. *)
Theorem poll_cycle_fields
    (time_now : Q) (o : CloudSrc.poll_outcome) (c : CloudSrc.t) :
  let previous := CloudSrc._latest c in
  let r := CloudSrc.poll_once time_now o c in
  (CloudSrc.phase c = CloudSrc.Polling -> CloudSrc._stop c = false ->
   CloudSrc._latest (CloudSrc.loop_step (CloudSrc.Poll time_now o) c) = r) /\
  (forall data : json,
     o = CloudSrc.PollDone (Some data) ->
     ShotMetrics.notes r = "Cloud dashboard"%string ->
     carried previous r) /\
  (ShotMetrics.notes r <> "Cloud dashboard"%string ->
   r = ShotMetrics.with_notes (ShotMetrics.notes r)) /\
  (forall e : exc,
     o = CloudSrc.PollRaised e ->
     r = ShotMetrics.with_notes ("Cloud error: " +:+ exc_text e)) /\
  (cloud_reachable c -> blank previous /\ blank r /\ carried previous r).
Proof.
  intros previous r. subst previous r.
  split; [| split; [| split; [| split]]].
  - intros Hp Hs. unfold CloudSrc.loop_step. by rewrite Hp, Hs.
  - intros data -> Hn.
    destruct (poll_once_cases time_now (CloudSrc.PollDone (Some data)) c)
      as [(data' & _ & E) | (n & E & Hne)].
    + by apply parse_carries in E as [E _].
    + rewrite E in Hn. by cbn in Hn.
  - intros Hn.
    destruct (poll_once_cases time_now o c) as [(data & _ & E) | (n & E & _)].
    + by apply parse_carries in E as [_ E].
    + by rewrite E.
  - by intros e ->.
  - intros Hr. pose proof (reachable_blank c Hr) as Hb.
    pose proof (poll_once_blank time_now o c Hb) as Hb'.
    split; [done |]. split; [done |]. by apply blank_carried.
Qed.

End CloudFacts.

Lemma polled_cloud_reachable :
  @cloud_reachable mute_runtime Samples.polled_cloud.
Proof. unfold Samples.polled_cloud. repeat constructor. Qed.

Lemma poll_cycle_fields_witness :
  let failed := CloudSrc.PollRaised (mk_exc OtherException "timeout") in
  let r := @CloudSrc.poll_once mute_runtime 1 failed Samples.polled_cloud in
  @cloud_reachable mute_runtime Samples.polled_cloud /\
  ShotMetrics.notes r <> "Cloud dashboard"%string /\
  r = ShotMetrics.with_notes "Cloud error: timeout" /\
  ReadingSpec.carried (CloudSrc._latest Samples.polled_cloud) r.
Proof.
  cbn zeta.
  destruct (@poll_cycle_fields mute_runtime 1
              (CloudSrc.PollRaised (mk_exc OtherException "timeout"))
              Samples.polled_cloud) as (_ & _ & _ & Hfail & Hreach).
  split; [exact polled_cloud_reachable |].
  split; [discriminate |].
  split; [exact (Hfail _ eq_refl) |].
  exact (proj2 (proj2 (Hreach polled_cloud_reachable))).
Defined.

(** After a poll that read a boiler target of 94, a poll that raises
    publishes a boiler temperature of 0 and the default brew state. *)
Lemma failed_poll_resets_counterexample :
  let failed := CloudSrc.PollRaised (mk_exc OtherException "timeout") in
  let previous := CloudSrc._latest Samples.polled_cloud in
  let r := @CloudSrc.poll_once mute_runtime 1 failed Samples.polled_cloud in
  @cloud_reachable mute_runtime Samples.polled_cloud /\
  ShotMetrics.notes previous = "Cloud dashboard"%string /\
  ShotMetrics.boiler_temp_c previous == 94 /\
  ShotMetrics.brew_state previous = JStr "UNKNOWN" /\
  ShotMetrics.notes r = "Cloud error: timeout"%string /\
  ShotMetrics.boiler_temp_c r == 0 /\
  ShotMetrics.brew_state r = JStr "IDLE" /\
  ~ ShotMetrics.boiler_temp_c r == ShotMetrics.boiler_temp_c previous.
Proof.
  cbn zeta. split; [exact polled_cloud_reachable |].
  repeat (split; [reflexivity |]).
  intros H. vm_compute in H. discriminate H.
Qed.

(** C9. Until readiness is signalled every [get_snapshot] returns the same
    reading, all fields at their defaults and the note "Connecting to
    cloud...", whatever the clock and the draws, and leaves the fallback
    simulator as it was. *)
Theorem connecting_placeholder
    (d : Sim.draws) (clock : Q) (fallback : Sim.t) (c : CloudSrc.t) :
  CloudSrc._ready c = false ->
  CloudSrc.get_snapshot d clock fallback c
  = (fallback,
     ShotMetrics.mk 0 0 0%Z 0 0 0 0 (JStr "IDLE") false
                    "Connecting to cloud...").
Proof. intros H. unfold CloudSrc.get_snapshot. by rewrite H. Qed.

Lemma connecting_placeholder_witness :
  CloudSrc._ready CloudSrc.init = false /\
  snd (CloudSrc.get_snapshot Samples.later_tick 5 Samples.idle_sim
         CloudSrc.init)
  = ShotMetrics.with_notes "Connecting to cloud...".
Proof.
  split; [reflexivity |].
  by rewrite (connecting_placeholder Samples.later_tick 5 Samples.idle_sim
                CloudSrc.init eq_refl).
Defined.

(** C8. Once readiness is signalled and the note of the last recorded
    reading starts with "Cloud disabled", [get_snapshot] is the fallback
    simulator's [get_snapshot]: the same reading, and the same tick applied
    to the fallback. *)
Theorem disabled_delegates
    (d : Sim.draws) (clock : Q) (fallback : Sim.t) (c : CloudSrc.t) :
  CloudSrc._ready c = true ->
  String.prefix "Cloud disabled" (ShotMetrics.notes (CloudSrc._latest c))
  = true ->
  CloudSrc.get_snapshot d clock fallback c
  = Sim.get_snapshot d clock fallback.
Proof. intros Hr Hn. unfold CloudSrc.get_snapshot. by rewrite Hr, Hn. Qed.

Lemma disabled_delegates_witness :
  CloudSrc._ready Samples.disabled_cloud = true /\
  ShotMetrics.notes (CloudSrc._latest Samples.disabled_cloud)
  = "Cloud disabled: no route"%string /\
  CloudSrc.get_snapshot Samples.later_tick 5 Samples.brewing_sim
                        Samples.disabled_cloud
  = Sim.get_snapshot Samples.later_tick 5 Samples.brewing_sim.
Proof.
  split; [reflexivity |]. split; [reflexivity |].
  apply (disabled_delegates Samples.later_tick 5 Samples.brewing_sim
           Samples.disabled_cloud); reflexivity.
Defined.

(** ** The coordinator *)

(** C1, as the code has it.  [DataCoordinator.stop()] sets the coordinator's
    own stop event, after which an iteration of its loop does nothing; the
    active source, its stop event included, the simulator and the published
    state are left as they were. *)
Theorem coordinator_stop_is_local
    {rt : PyRuntime} (co : DataCoordinator.t)
    (i : DataCoordinator.cycle_input) :
  DataCoordinator._stop (DataCoordinator.stop co) = true /\
  DataCoordinator._loop_iteration i (DataCoordinator.stop co)
  = DataCoordinator.stop co /\
  DataCoordinator.lm_source (DataCoordinator.stop co)
  = DataCoordinator.lm_source co /\
  DataCoordinator.remote_stop (DataCoordinator.stop co)
  = DataCoordinator.remote_stop co /\
  DataCoordinator.sim_source (DataCoordinator.stop co)
  = DataCoordinator.sim_source co /\
  DataCoordinator.latest (DataCoordinator.stop co)
  = DataCoordinator.latest co.
Proof. by repeat split. Qed.

(** On a coordinator whose active source is a cloud source, [stop()] leaves
    that source's stop event clear, where the source's own [stop()] sets
    it. *)
Lemma coordinator_stop_counterexample :
  DataCoordinator.lm_source Samples.cloud_coordinator
  = DataCoordinator.Cloud CloudSrc.init /\
  DataCoordinator._stop (DataCoordinator.stop Samples.cloud_coordinator)
  = true /\
  DataCoordinator.remote_stop (DataCoordinator.stop Samples.cloud_coordinator)
  = Some false /\
  CloudSrc._stop (CloudSrc.stop CloudSrc.init) = true.
Proof. by repeat split. Qed.

(** * Further properties *)

(** ** Configuration *)

Lemma object_depth_lookup (m : gmap string json) (key : string) (v : json) :
  m !! key = Some v -> (object_depth v < object_depth (JObj m))%nat.
Proof.
  cbn [object_depth]. intros H. apply Nat.lt_succ_r. revert key v H.
  apply (map_fold_weak_ind
           (fun r (m : gmap string json) =>
              forall key v, m !! key = Some v -> (object_depth v <= r)%nat)).
  - intros key v H. by rewrite lookup_empty in H.
  - intros i x m' r Hi IH key v H.
    destruct (decide (i = key)) as [->|Hne].
    + rewrite lookup_insert_eq in H. injection H as ->. lia.
    + rewrite lookup_insert_ne in H by done. specialize (IH _ _ H). lia.
Qed.

(** Induction on a value through the members of objects. *)
Lemma json_object_ind (P : json -> Prop) :
  (forall v : json, (forall m, v <> JObj m) -> P v) ->
  (forall m : gmap string json,
     (forall key v, m !! key = Some v -> P v) -> P (JObj m)) ->
  forall v : json, P v.
Proof.
  intros Hleaf Hobj v.
  remember (object_depth v) as n eqn:E. revert v E.
  induction n as [n IH] using lt_wf_ind. intros v ->.
  destruct v as [| | | | | |m]; try (apply Hleaf; congruence).
  apply Hobj. intros key v Hv.
  apply (IH (object_depth v)); [by eapply object_depth_lookup | done].
Qed.

Lemma merge_items_lookup (base items : gmap string json) (key : string) :
  Config.merge_items (JObj items) base !! key
  = match items !! key with
    | Some value => Some (Config.merged value (base !! key))
    | None => base !! key
    end.
Proof.
  cbn [Config.merge_items]. revert key.
  match goal with |- forall key, map_fold ?f _ _ !! key = _ =>
    apply (map_fold_weak_ind
             (fun r (m : gmap string json) =>
                forall key,
                  r !! key
                  = match m !! key with
                    | Some value => Some (Config.merged value (base !! key))
                    | None => base !! key
                    end) f)
  end.
  - intros key. by rewrite lookup_empty.
  - intros i x m r Hi IH key.
    assert (Hr : r !! i = base !! i) by (by rewrite IH, Hi).
    destruct (decide (i = key)) as [->|Hne].
    + rewrite lookup_insert_eq. rewrite Hr.
      destruct x, (base !! key) as [[]|]; by rewrite lookup_insert_eq.
    + rewrite (lookup_insert_ne m) by done. rewrite <- IH.
      destruct x, (r !! i) as [[]|]; by rewrite lookup_insert_ne.
Qed.

Lemma deep_merge_at (base overrides : gmap string json) (key : string) :
  Config._deep_merge base overrides !! key
  = match overrides !! key with
    | Some value => Some (Config.merged value (base !! key))
    | None => base !! key
    end.
Proof. apply merge_items_lookup. Qed.

(** X1. The merged table, key by key: a key [overrides] lacks keeps the
    value of [base]; a key it has takes the overriding value, except that a
    table over a table is merged recursively. *)
Theorem deep_merge_lookup (base overrides : gmap string json) (key : string) :
  Config._deep_merge base overrides !! key
  = match overrides !! key with
    | Some value => Some (Config.merged value (base !! key))
    | None => base !! key
    end.
Proof. apply deep_merge_at. Qed.

Lemma deep_merge_self_value (v : json) :
  forall m : gmap string json, v = JObj m -> Config._deep_merge m m = m.
Proof.
  induction v as [v Hleaf | m' IH] using json_object_ind; intros m E.
  - by destruct (Hleaf m).
  - injection E as <-. apply map_eq. intros key.
    rewrite deep_merge_at.
    destruct (m' !! key) as [value|] eqn:Hk; [| done].
    f_equal. destruct value; try done. cbn.
    f_equal. by apply (IH key _ Hk).
Qed.

Lemma deep_merge_self (m : gmap string json) : Config._deep_merge m m = m.
Proof. by apply (deep_merge_self_value (JObj m)). Qed.

Lemma deep_merge_idempotent_value (v : json) :
  forall overrides : gmap string json, v = JObj overrides ->
  forall base : gmap string json,
    Config._deep_merge (Config._deep_merge base overrides) overrides
    = Config._deep_merge base overrides.
Proof.
  induction v as [v Hleaf | m IH] using json_object_ind; intros overrides E.
  - by destruct (Hleaf overrides).
  - injection E as <-. intros base. apply map_eq. intros key.
    rewrite !deep_merge_at.
    destruct (m !! key) as [value|] eqn:Hk; [| done].
    f_equal.
    destruct value as [| | | | | |over]; try done.
    destruct (base !! key) as [[| | | | | |nested]|]; cbn;
      try (by rewrite deep_merge_self).
    f_equal. by apply (IH key _ Hk).
Qed.

(** X2. Merging the same overrides a second time changes nothing, and a
    table merged into itself is unchanged. *)
Theorem deep_merge_idempotent (base overrides : gmap string json) :
  Config._deep_merge (Config._deep_merge base overrides) overrides
  = Config._deep_merge base overrides /\
  Config._deep_merge overrides overrides = overrides.
Proof.
  split.
  - by apply (deep_merge_idempotent_value (JObj overrides)).
  - apply deep_merge_self.
Qed.

Lemma deep_merge_dom (base overrides : gmap string json) :
  dom (Config._deep_merge base overrides) = dom base ∪ dom overrides.
Proof.
  apply set_eq. intros key.
  rewrite elem_of_union, !elem_of_dom, deep_merge_at.
  destruct (overrides !! key), (base !! key); split; intros H;
    try done; try (by eexists); try (by left); try (by right).
  by destruct H as [[]|[]].
Qed.

(** X3. The merge drops no key: the keys of the result are those of the
    base together with those of the overrides; empty overrides leave the
    base as it is and an empty base yields the overrides. *)
Theorem deep_merge_keys (base overrides : gmap string json) :
  dom (Config._deep_merge base overrides) = dom base ∪ dom overrides /\
  Config._deep_merge base ∅ = base /\
  Config._deep_merge ∅ overrides = overrides.
Proof.
  split; [| split].
  - apply deep_merge_dom.
  - apply map_eq. intros key. by rewrite deep_merge_at, lookup_empty.
  - apply map_eq. intros key. rewrite deep_merge_at, lookup_empty.
    by destruct (overrides !! key) as [[]|].
Qed.

(** X4. Every setting of the overrides takes effect: a value that is not a
    table and sits at some path in [overrides] sits at the same path in the
    merged table, whatever the base holds there. *)
Theorem deep_merge_override_wins (path : list string) :
  forall (base overrides : gmap string json) (v : json),
    path <> [] ->
    lookup_path path (JObj overrides) = Some v ->
    (forall m, v <> JObj m) ->
    lookup_path path (JObj (Config._deep_merge base overrides)) = Some v.
Proof.
  induction path as [|key rest IH]; intros base overrides v Hne Hv Hleaf;
    [done |].
  cbn in Hv |- *. rewrite deep_merge_at.
  destruct (overrides !! key) as [value|]; [| done].
  destruct rest as [|key' rest].
  - cbn in Hv |- *. injection Hv as ->. f_equal.
    destruct v; try done. by destruct (Hleaf m).
  - destruct value as [| | | | | |over]; try done.
    destruct (base !! key) as [[| | | | | |nested]|]; try done.
    cbn [Config.merged]. by apply IH.
Qed.

Lemma deep_merge_override_wins_witness :
  lookup_path ["arduino"; "host"]%string (JObj ConfigSamples.host_only)
  = Some (JStr "10.0.0.5") /\
  lookup_path ["arduino"; "host"]%string
    (JObj (Config._deep_merge Config._default_config ConfigSamples.host_only))
  = Some (JStr "10.0.0.5").
Proof.
  split; [reflexivity |].
  apply deep_merge_override_wins; [discriminate | reflexivity | discriminate].
Defined.

(** X5. A default setting survives the user file unless the file overrides
    that very setting: if the file does not name the section, or names it as
    a table without the key, the loaded configuration holds the default
    value at [section][key]. *)
Theorem load_config_keeps_default
    (user_cfg defaults : gmap string json) (name key : string) (v : json) :
  Config._default_config !! name = Some (JObj defaults) ->
  defaults !! key = Some v ->
  (user_cfg !! name = None \/
   exists table : gmap string json,
     user_cfg !! name = Some (JObj table) /\ table !! key = None) ->
  lookup_path [name; key] (JObj (Config.load_config (Config.Loaded user_cfg)))
  = Some v.
Proof.
  intros Hd Hv Hu. cbn [lookup_path Config.load_config].
  rewrite deep_merge_at, Hd.
  destruct Hu as [-> | (table & -> & Hk)].
  - by rewrite Hv.
  - cbn [Config.merged]. by rewrite deep_merge_at, Hk, Hv.
Qed.

Lemma load_config_keeps_default_witness :
  ConfigSamples.host_only !! "arduino"
  = Some (JObj {[ "host"%string := JStr "10.0.0.5" ]}) /\
  lookup_path ["arduino"; "timeout"]%string
    (JObj (Config.load_config (Config.Loaded ConfigSamples.host_only)))
  = Some (JFloat (6#10)).
Proof.
  split; [reflexivity |].
  eapply load_config_keeps_default; [reflexivity | reflexivity |].
  right. by eexists.
Defined.

(** X6. Whatever is found at the configuration path, the loaded
    configuration has a value for every key of the defaults; without a file,
    or with a file whose loading raised, it is the defaults themselves. *)
Theorem load_config_total (file : Config.config_file) :
  dom Config._default_config ⊆ dom (Config.load_config file) /\
  Config.load_config Config.NoFile = Config._default_config /\
  (forall e : exc,
     Config.load_config (Config.LoadRaised e) = Config._default_config).
Proof.
  split; [| done].
  destruct file as [|e|user_cfg]; cbn [Config.load_config]; try done.
  rewrite deep_merge_dom. apply union_subseteq_l.
Qed.

(** ** The client's URLs *)

Lemma append_nonempty (s : string) (c : ascii) :
  s +:+ String c EmptyString <> EmptyString.
Proof. by destruct s. Qed.

Lemma append_cons (a : ascii) (s t : string) :
  String a s +:+ t = String a (s +:+ t).
Proof. reflexivity. Qed.

Lemma append_nil (t : string) : EmptyString +:+ t = t.
Proof. reflexivity. Qed.

Lemma rstrip_no_trailing (c : ascii) (s t : string) :
  PyStr.rstrip c s <> t +:+ String c EmptyString.
Proof.
  revert t. induction s as [|a rest IH]; intros t; cbn [PyStr.rstrip].
  - intros H. symmetry in H. by apply append_nonempty in H.
  - destruct (PyStr.rstrip c rest) as [|k kept] eqn:E.
    + destruct (Ascii.eqb_spec a c) as [->|Hne].
      * intros H. symmetry in H. by apply append_nonempty in H.
      * destruct t as [|a' t']; rewrite ?append_nil, ?append_cons;
          intros H; simplify_eq.
        by eapply append_nonempty.
    + destruct t as [|a' t']; rewrite ?append_nil, ?append_cons;
        intros H; simplify_eq.
      by apply (IH t').
Qed.

Lemma rstrip_snoc (c : ascii) (s : string) :
  PyStr.rstrip c (s +:+ String c EmptyString) = PyStr.rstrip c s.
Proof.
  induction s as [|a rest IH].
  - rewrite append_nil. cbn [PyStr.rstrip]. by rewrite Ascii.eqb_refl.
  - rewrite append_cons. cbn [PyStr.rstrip]. by rewrite IH.
Qed.

Lemma rstrip_fixed (c : ascii) (s : string) :
  (forall t, s <> t +:+ String c EmptyString) -> PyStr.rstrip c s = s.
Proof.
  induction s as [|a rest IH]; intros H; cbn [PyStr.rstrip]; [done |].
  destruct rest as [|b rest'].
  - cbn [PyStr.rstrip]. destruct (Ascii.eqb_spec a c) as [->|]; [| done].
    by destruct (H EmptyString).
  - rewrite IH.
    + done.
    + intros t E. apply (H (String a t)). by rewrite append_cons, E.
Qed.

(** X7. The base URL a client keeps never ends with a slash, so the status
    and override URLs join it to their path with exactly one; trailing
    slashes of the URL given do not matter, and a URL without one is kept as
    it is. *)
Theorem base_url_normalised (url : string) (timeout : Q) :
  (forall s : string,
     ArduinoEndpoint.base_url (ArduinoEndpoint.init url timeout)
     <> s +:+ "/") /\
  ArduinoEndpoint.init (url +:+ "/") timeout
  = ArduinoEndpoint.init url timeout /\
  ((forall s : string, url <> s +:+ "/") ->
   ArduinoEndpoint.status_url (ArduinoEndpoint.init url timeout)
   = url +:+ "/status").
Proof.
  unfold ArduinoEndpoint.init, ArduinoEndpoint.status_url. cbn.
  split; [| split].
  - intros s. apply rstrip_no_trailing.
  - by rewrite rstrip_snoc.
  - intros H. by rewrite rstrip_fixed.
Qed.

Lemma base_url_normalised_witness :
  (forall s : string, "http://10.0.0.5"%string <> s +:+ "/") /\
  ArduinoEndpoint.status_url (ArduinoEndpoint.init "http://10.0.0.5" (6#10))
  = "http://10.0.0.5/status"%string.
Proof.
  assert (H : forall s : string, "http://10.0.0.5"%string <> s +:+ "/").
  { intros s E.
    apply (rstrip_no_trailing "/" "http://10.0.0.5" s).
    rewrite <- E. reflexivity. }
  split; [exact H |].
  exact (proj2 (proj2 (base_url_normalised "http://10.0.0.5" (6#10))) H).
Defined.

(** ** Construction of the coordinator *)

Section StartupFacts.
Context {rt : PyRuntime}.

#[local] Existing Instances Startup.result_ret Startup.result_bind.

Lemma gets_table (m : gmap string json) (keys : list string) :
  mapM (fun key => Builtins.get (JObj m) key JNull) keys
  = inr ((fun key => option.default JNull (m !! key)) <$> keys).
Proof.
  induction keys as [|key keys IH]; [done |].
  cbn [mapM]. rewrite IH. reflexivity.
Qed.

Lemma forallb_fmap {A B : Type} (f : A -> B) (p : B -> Datatypes.bool)
    (l : list A) :
  forallb p (f <$> l) = forallb (fun a => p (f a)) l.
Proof. induction l as [|a l IH]; [done |]. cbn. by rewrite IH. Qed.

Lemma select_source_table (m : gmap string json) (ctor : option exc) :
  Startup.select_source (JObj m) ctor
  = inr (if Builtins.bool (option.default JNull (m !! "enable_cloud"))
            && forallb (fun key =>
                          Builtins.bool (option.default JNull (m !! key)))
                       Startup.credentials
         then match ctor with
              | None => DataCoordinator.Cloud CloudSrc.init
              | Some _ => DataCoordinator.Simulated
              end
         else DataCoordinator.Simulated).
Proof.
  unfold Startup.select_source.
  rewrite gets_table.
  cbn [Builtins.get mbind Startup.result_bind mret Startup.result_ret].
  rewrite forallb_fmap.
  destruct (Builtins.bool (option.default JNull (m !! "enable_cloud")));
    cbn [andb]; [| done].
  destruct (forallb _ Startup.credentials); [| done].
  by destruct ctor.
Qed.

Lemma init_source (config : gmap string json) (e : Startup.env)
    (b : Startup.built) :
  Startup.__init__ config e = inr b ->
  Startup.select_source (Startup.section config "la_marzocco")
                        (Startup.cloud_ctor e)
  = inr (DataCoordinator.lm_source (Startup.coordinator b)).
Proof.
  unfold Startup.__init__, mbind, mret, Startup.result_bind,
    Startup.result_ret.
  intros H. repeat case_match; by simplify_eq.
Qed.

(** X8. The cloud source becomes the active source exactly when the
    [la_marzocco] section enables it, gives a truthy value for each of the
    six credentials, and the construction of the cloud source did not raise;
    in every other case the simulated source is used. *)
Theorem cloud_selected_iff (config : gmap string json) (e : Startup.env)
    (b : Startup.built) :
  Startup.__init__ config e = inr b ->
  let active := DataCoordinator.lm_source (Startup.coordinator b) in
  (active = DataCoordinator.Cloud CloudSrc.init \/
   active = DataCoordinator.Simulated) /\
  (active = DataCoordinator.Cloud CloudSrc.init <->
   StartupSpec.cloud_configured config /\ Startup.cloud_ctor e = None).
Proof.
  intros Hinit active. subst active.
  apply init_source in Hinit.
  destruct (Startup.section config "la_marzocco") as [| | | | | |m] eqn:Hs;
    try discriminate Hinit.
  rewrite select_source_table in Hinit.
  remember (forallb
              (fun key => Builtins.bool (option.default JNull (m !! key)))
              Startup.credentials) as creds eqn:Hc.
  remember (Builtins.bool (option.default JNull (m !! "enable_cloud")))
    as enable eqn:He.
  symmetry in Hc, He.
  assert (Hall : creds = true <->
                 Forall
                   (fun key =>
                      Builtins.bool (option.default JNull (m !! key)) = true)
                   Startup.credentials).
  { rewrite <- Hc, forallb_forall, Forall_forall.
    split; intros H key Hk; apply H; by apply list_elem_of_In. }
  injection Hinit as <-.
  unfold StartupSpec.cloud_configured. rewrite Hs.
  destruct enable, creds, (Startup.cloud_ctor e) as [err|]; cbn.
  all: split; [first [by left | by right] |].
  all: split; try done.
  - by intros [_ ?].
  - intros _. split; [| done]. exists m. rewrite He. by rewrite <- Hall.
  - intros [(m' & [= <-] & _ & H) _]. apply Hall in H. discriminate H.
  - intros [(m' & [= <-] & _ & H) _]. apply Hall in H. discriminate H.
  - intros [(m' & [= <-] & H & _) _]. congruence.
  - intros [(m' & [= <-] & H & _) _]. congruence.
  - intros [(m' & [= <-] & H & _) _]. congruence.
  - intros [(m' & [= <-] & H & _) _]. congruence.
Qed.

End StartupFacts.

Lemma cloud_selected_iff_witness :
  let config :=
    Config.load_config (Config.Loaded ConfigSamples.cloud_enabled) in
  @Startup.__init__ mute_runtime config ConfigSamples.calm
  = inr StartupSamples.cloud_built /\
  DataCoordinator.lm_source (Startup.coordinator StartupSamples.cloud_built)
  = DataCoordinator.Cloud CloudSrc.init.
Proof.
  cbn zeta.
  assert (H : @Startup.__init__ mute_runtime
                (Config.load_config (Config.Loaded ConfigSamples.cloud_enabled))
                ConfigSamples.calm
              = inr StartupSamples.cloud_built) by reflexivity.
  split; [exact H |].
  apply (proj2 (@cloud_selected_iff mute_runtime _ _ _ H)).
  split; [| reflexivity].
  eexists. split; [reflexivity |]. split; [reflexivity |].
  repeat constructor.
Defined.

Section StartupMore.
Context {rt : PyRuntime}.

#[local] Existing Instances Startup.result_ret Startup.result_bind.

Lemma loaded_section_user
    (user_cfg : gmap string json) (name : string) (v : json) :
  user_cfg !! name = Some v ->
  (forall m, v <> JObj m) ->
  Startup.section (Config.load_config (Config.Loaded user_cfg)) name = v.
Proof.
  intros Hu Hv. unfold Startup.section. cbn [Config.load_config].
  rewrite deep_merge_at, Hu. cbn [option.default].
  destruct v; try done. by destruct (Hv m).
Qed.

Lemma loaded_section_default (file : Config.config_file) (name : string) :
  StartupSpec.plain file ->
  name ∈ StartupSpec.sections ->
  Startup.section (Config.load_config file) name
  = Startup.section Config._default_config name.
Proof.
  intros Hp Hn. destruct file as [|e|user_cfg]; try done.
  unfold Startup.section. cbn [Config.load_config].
  by rewrite deep_merge_at, (Hp name Hn).
Qed.

Lemma get_non_table (v : json) (key : string) (dflt : json) :
  (forall m, v <> JObj m) ->
  Builtins.get v key dflt
  = inl (mk_exc OtherException (failure_text (NoAttribute (type_of v) "get"))).
Proof. intros H. destruct v; try done. by destruct (H m). Qed.

(** X9. A user file in which [arduino], [shot] or [la_marzocco] is not a
    table makes the construction of the coordinator raise: the loaded
    configuration holds that value in place of the section, and the
    constructor calls [.get] on it. *)
Theorem init_rejects_non_table
    (user_cfg : gmap string json) (e : Startup.env) (name : string) (v : json) :
  name ∈ StartupSpec.sections ->
  user_cfg !! name = Some v ->
  (forall m, v <> JObj m) ->
  Config.load_config (Config.Loaded user_cfg) !! name = Some v /\
  exists err : exc,
    Startup.__init__ (Config.load_config (Config.Loaded user_cfg)) e
    = inl err.
Proof.
  intros Hn Hu Hv.
  pose proof (loaded_section_user user_cfg name v Hu Hv) as Hs.
  split.
  { cbn [Config.load_config]. rewrite deep_merge_at, Hu.
    f_equal. destruct v; try done. by destruct (Hv m). }
  unfold Startup.__init__, Startup.select_source.
  unfold StartupSpec.sections in Hn.
  repeat (apply elem_of_cons in Hn as [-> | Hn]);
    [| | | by apply elem_of_nil in Hn];
    rewrite Hs, !(get_non_table v _ _ Hv);
    unfold mbind, Startup.result_bind;
    repeat case_match; by eexists.
Qed.

(** X10. Without a configuration file, with one whose loading raised, or
    with one that names none of [arduino], [shot] and [la_marzocco], the
    coordinator is built on the simulated source with a 36 g target, polls
    http://192.168.0.177 with a 0.6 s timeout, is not stopped and publishes
    the default state; whether the cloud library is installed plays no
    part. *)
Theorem plain_startup (file : Config.config_file) (e : Startup.env) :
  StartupSpec.plain file ->
  Startup.__init__ (Config.load_config file) e
  = inr (Startup.mk_built
           (ArduinoEndpoint.mk "http://192.168.0.177" (6#10))
           (DataCoordinator.mk (Sim.init 36 (Startup.monotonic e))
              DataCoordinator.Simulated
              (CombinedState.default (Startup.wall e)) false)).
Proof.
  intros Hp. unfold Startup.__init__.
  rewrite !(loaded_section_default file _ Hp)
    by (unfold StartupSpec.sections; set_solver).
  reflexivity.
Qed.

End StartupMore.

Lemma init_rejects_non_table_witness :
  ConfigSamples.arduino_number !! "arduino" = Some (JInt 5) /\
  exists err : exc,
    @Startup.__init__ mute_runtime
      (Config.load_config (Config.Loaded ConfigSamples.arduino_number))
      ConfigSamples.calm
    = inl err.
Proof.
  split; [reflexivity |].
  apply (@init_rejects_non_table mute_runtime ConfigSamples.arduino_number
           ConfigSamples.calm "arduino" (JInt 5)).
  - unfold StartupSpec.sections. apply elem_of_cons. by left.
  - reflexivity.
  - discriminate.
Defined.

Lemma plain_startup_witness :
  StartupSpec.plain Config.NoFile /\
  DataCoordinator.lm_source
    (Startup.coordinator
       (Startup.mk_built
          (ArduinoEndpoint.mk "http://192.168.0.177" (6#10))
          (DataCoordinator.mk (Sim.init 36 0) DataCoordinator.Simulated
             (CombinedState.default 0) false)))
  = DataCoordinator.Simulated /\
  @Startup.__init__ mute_runtime (Config.load_config Config.NoFile)
    ConfigSamples.calm
  = inr (Startup.mk_built
           (ArduinoEndpoint.mk "http://192.168.0.177" (6#10))
           (DataCoordinator.mk (Sim.init 36 0) DataCoordinator.Simulated
              (CombinedState.default 0) false)).
Proof.
  split; [exact I |]. split; [reflexivity |].
  exact (@plain_startup mute_runtime Config.NoFile ConfigSamples.calm I).
Defined.

Lemma int_per_thousand_some (n : Z) (x : Q) :
  Startup.int_per_thousand n = Some x -> x = inject_Z n / 1000.
Proof.
  unfold Startup.int_per_thousand.
  destruct (Startup.float_limit * 1000 <=? Z.abs n)%Z; [discriminate |].
  by intros [= <-].
Qed.

(** X11. The interval [_loop] computes for the sleep between two poll
    cycles is never shorter than 0.1 s: for an integer refresh rate it is
    the rate in seconds when that is at least 100 ms and 0.1 s when it is
    smaller (zero and negative included), and it is 0.2 s when the
    configuration has no refresh rate.  No interval is computed for an
    integer rate of magnitude 1000 (2^1024 - 2^970) or more, and among the
    integers for such a rate only: its division by 1000 raises. *)
Theorem poll_interval_floor (config : gmap string json) :
  (forall q : Q,
     Startup.poll_interval config = Some q ->
     1#10 <= q /\
     (config !! "refresh_rate_ms" = None -> q == 2#10) /\
     (forall n : Z,
        config !! "refresh_rate_ms" = Some (JInt n) ->
        ((100 <= n)%Z -> q == inject_Z n / 1000) /\
        ((n < 100)%Z -> q == 1#10))) /\
  (forall n : Z,
     config !! "refresh_rate_ms" = Some (JInt n) ->
     Startup.poll_interval config = None <->
     (Startup.float_limit * 1000 <= Z.abs n)%Z).
Proof.
  unfold Startup.poll_interval. split.
  - intros q H. split; [| split].
    + destruct (option.default (JInt 200) (config !! "refresh_rate_ms"))
        as [|b|n|x|s|l|m]; try discriminate H.
      * injection H as <-. apply max_ge_l.
      * destruct (Startup.int_per_thousand n) as [x|]; [| discriminate H].
        injection H as <-. apply max_ge_l.
      * injection H as <-. apply max_ge_l.
    + intros Hnone. rewrite Hnone in H.
      injection H as <-. reflexivity.
    + intros n Hn. rewrite Hn in H. cbv [from_option id] in H.
      destruct (Startup.int_per_thousand n) as [x|] eqn:Ex;
        [| discriminate H].
      apply int_per_thousand_some in Ex. subst x. injection H as <-.
      assert (E : inject_Z n / 1000 == inject_Z n * (1#1000))
        by (unfold Qdiv; reflexivity).
      split; intros Hb.
      * assert (inject_Z 100 <= inject_Z n) by (by rewrite <- Zle_Qle).
        change (inject_Z 100) with 100 in *.
        destruct (max_cases (1#10) (inject_Z n / 1000)) as [[_ ->]|[? ->]];
          lra.
      * assert (inject_Z n < inject_Z 100) by (by rewrite <- Zlt_Qlt).
        change (inject_Z 100) with 100 in *.
        destruct (max_cases (1#10) (inject_Z n / 1000)) as [[? ->]|[_ ->]];
          lra.
  - intros n Hn. rewrite Hn. cbv [from_option id].
    unfold Startup.int_per_thousand.
    destruct (Z.leb_spec (Startup.float_limit * 1000) (Z.abs n)) as [H|H].
    + split; [by intros _ | reflexivity].
    + split; [discriminate | lia].
Qed.

Lemma poll_interval_floor_witness :
  Startup.poll_interval {[ "refresh_rate_ms"%string := JInt 0 ]}
  = Some (1#10) /\
  1#10 <= 1#10 /\
  Startup.poll_interval {[ "refresh_rate_ms"%string := JInt (10 ^ 400) ]}
  = None.
Proof.
  split; [reflexivity |]. split.
  - apply (proj1 (poll_interval_floor
                    {[ "refresh_rate_ms"%string := JInt 0 ]}) (1#10)).
    reflexivity.
  - apply (proj2 (poll_interval_floor
                    {[ "refresh_rate_ms"%string := JInt (10 ^ 400) ]})
             (10 ^ 400)%Z); [reflexivity |].
    vm_compute. discriminate.
Defined.

(** ** Poll cycles of the coordinator *)

Lemma tick_keeps_shot (d : Sim.draws) (s : Sim.t) :
  Sim._shot_active (Sim._tick d s) = Sim._shot_active s /\
  Sim._shot_start (Sim._tick d s) = Sim._shot_start s /\
  Sim.target_weight_g (Sim._tick d s) = Sim.target_weight_g s.
Proof. unfold Sim._tick. by destruct (Sim._shot_active s). Qed.

Lemma notify_open_idle (clock : Q) (status : ArduinoStatus.t) (s : Sim.t) :
  ArduinoStatus.paddle status = 0%Z ->
  Sim._shot_active (Sim.notify_arduino clock status s) = false.
Proof.
  intros Hp. unfold Sim.notify_arduino. rewrite Hp. cbn.
  by destruct (Sim._shot_active s) eqn:E.
Qed.

Lemma notify_closed_active (clock : Q) (status : ArduinoStatus.t) (s : Sim.t) :
  ArduinoStatus.paddle status = 1%Z ->
  Sim._shot_active (Sim.notify_arduino clock status s) = true.
Proof.
  intros Hp. unfold Sim.notify_arduino. rewrite Hp. cbn.
  by destruct (Sim._shot_active s) eqn:E.
Qed.

Section CycleFacts.
Context {rt : PyRuntime}.

Lemma cloud_snapshot_keeps_shot
    (d : Sim.draws) (clock : Q) (sim : Sim.t) (c : CloudSrc.t) :
  Sim._shot_active (CloudSrc.get_snapshot d clock sim c).1
  = Sim._shot_active sim.
Proof.
  unfold CloudSrc.get_snapshot.
  destruct (CloudSrc._ready c); cbn; [| done].
  destruct (String.prefix _ _); cbn; [| done].
  apply tick_keeps_shot.
Qed.

(** X12. A status request that raises is read as an open paddle: the
    published status is the default one with the error message, and the
    cycle leaves the simulator idle even if a shot was running; with the
    simulated source active the published reading says IDLE with a shot time
    of 0. *)
Theorem failed_fetch_ends_shot
    (co : DataCoordinator.t) (i : DataCoordinator.cycle_input) (e : exc) :
  DataCoordinator.response i = ArduinoClient.Raised e ->
  let co' := DataCoordinator._update_once i co in
  let published := DataCoordinator.latest co' in
  CombinedState.arduino published
  = ArduinoClient.set_last_error
      (Some (ArduinoClient.category (exc_cls e) +:+ exc_text e))
      ArduinoStatus.default /\
  ArduinoStatus.paddle (CombinedState.arduino published) = 0%Z /\
  Sim._shot_active (DataCoordinator.sim_source co') = false /\
  (DataCoordinator.lm_source co = DataCoordinator.Simulated ->
   ShotMetrics.brew_state (CombinedState.shot published) = JStr "IDLE" /\
   ShotMetrics.shot_time_ms (CombinedState.shot published) = 0%Z).
Proof.
  intros Hresp co' published. subst co' published.
  unfold DataCoordinator._update_once, DataCoordinator.latest.
  rewrite Hresp.
  set (arduino := ArduinoClient.fetch_status (ArduinoClient.Raised e)).
  assert (Hp : ArduinoStatus.paddle arduino = 0%Z) by reflexivity.
  set (sim := DataCoordinator.notify _ arduino co).
  assert (Hidle : Sim._shot_active sim = false).
  { subst sim. unfold DataCoordinator.notify, CloudSrc.notify_arduino.
    destruct (DataCoordinator.lm_source co); by apply notify_open_idle. }
  unfold DataCoordinator.snapshot.
  destruct (DataCoordinator.lm_source co) as [|c] eqn:Hsrc.
  - cbn. destruct (tick_keeps_shot (DataCoordinator.tick i) sim) as [Ha _].
    rewrite Hidle in Ha. unfold Sim.reading. rewrite Ha.
    repeat split; done.
  - pose proof (cloud_snapshot_keeps_shot (DataCoordinator.tick i)
                  (DataCoordinator.snapshot_clock i) sim c) as Hk.
    destruct (CloudSrc.get_snapshot _ _ sim c) as [sim' shot]. cbn in *.
    repeat split; try done. congruence.
Qed.

(** X13. A status that reports paddle 1 shows in the reading of the same
    cycle: with the simulated source active, the published state pairs
    paddle 1 with brew state BREWING, whatever the simulator was doing
    before. *)
Theorem closed_paddle_brews_same_cycle
    (co : DataCoordinator.t) (i : DataCoordinator.cycle_input)
    (m : gmap string json) :
  DataCoordinator.response i = ArduinoClient.Decoded (JObj m) ->
  StatusSpec.coercible m ->
  Builtins.int (StatusSpec.field m "paddle" (JInt 0)) = inr 1%Z ->
  DataCoordinator.lm_source co = DataCoordinator.Simulated ->
  let published :=
    DataCoordinator.latest (DataCoordinator._update_once i co) in
  ArduinoStatus.paddle (CombinedState.arduino published) = 1%Z /\
  ArduinoStatus.last_error (CombinedState.arduino published) = None /\
  ShotMetrics.brew_state (CombinedState.shot published) = JStr "BREWING" /\
  Sim._shot_active
    (DataCoordinator.sim_source (DataCoordinator._update_once i co)) = true.
Proof.
  intros Hresp Hc Hpaddle Hsrc published. subst published.
  unfold DataCoordinator._update_once, DataCoordinator.latest,
    DataCoordinator.snapshot, DataCoordinator.notify.
  rewrite Hresp, Hsrc, (fetch_status_decoded m Hc).
  assert (Hp : ArduinoStatus.paddle (StatusSpec.decoded_status m) = 1%Z)
    by (cbn; by apply int_value_ok).
  pose proof (notify_closed_active (DataCoordinator.notify_clock i)
                (StatusSpec.decoded_status m)
                (DataCoordinator.sim_source co) Hp) as Hact.
  cbn.
  destruct (tick_keeps_shot (DataCoordinator.tick i)
              (Sim.notify_arduino (DataCoordinator.notify_clock i)
                 (StatusSpec.decoded_status m)
                 (DataCoordinator.sim_source co))) as [Ha _].
  rewrite Hact in Ha. unfold Sim.reading. rewrite Ha.
  repeat split; try done; by apply int_value_ok.
Qed.

(** X14. While the cloud source is ready and not disabled, a poll cycle
    publishes the cloud source's latest reading and only notifies the
    simulator: the simulator is not ticked, so its clock and its weight, flow
    and pressure stay where the notification leaves them. *)
Theorem cloud_cycle_skips_tick
    (co : DataCoordinator.t) (i : DataCoordinator.cycle_input)
    (c : CloudSrc.t) :
  DataCoordinator.lm_source co = DataCoordinator.Cloud c ->
  CloudSrc._ready c = true ->
  String.prefix "Cloud disabled" (ShotMetrics.notes (CloudSrc._latest c))
  = false ->
  let co' := DataCoordinator._update_once i co in
  CombinedState.shot (DataCoordinator.latest co') = CloudSrc._latest c /\
  DataCoordinator.sim_source co'
  = Sim.notify_arduino (DataCoordinator.notify_clock i)
      (ArduinoClient.fetch_status (DataCoordinator.response i))
      (DataCoordinator.sim_source co) /\
  Sim._last_update (DataCoordinator.sim_source co')
  = Sim._last_update (DataCoordinator.sim_source co) /\
  DataCoordinator.lm_source co' = DataCoordinator.Cloud c.
Proof.
  intros Hsrc Hr Hn co'. subst co'.
  unfold DataCoordinator._update_once, DataCoordinator.latest,
    DataCoordinator.snapshot, DataCoordinator.notify,
    CloudSrc.get_snapshot, CloudSrc.notify_arduino.
  rewrite Hsrc, Hr, Hn. cbn.
  repeat split; try done.
  unfold Sim.notify_arduino. by repeat case_match.
Qed.

End CycleFacts.

Lemma sparse_payload_coercible :
  @StatusSpec.coercible mute_runtime Samples.sparse_payload.
Proof.
  intros key v Hk Hv. unfold StatusSpec.int_fields in Hk.
  repeat (apply elem_of_cons in Hk as [-> | Hk];
          [vm_compute in Hv; inversion Hv; by eexists |]).
  by apply elem_of_nil in Hk.
Qed.

Lemma failed_fetch_ends_shot_witness :
  Sim._shot_active
    (DataCoordinator.sim_source CycleSamples.brewing_coordinator) = true /\
  let co' := @DataCoordinator._update_once mute_runtime
               CycleSamples.failed_cycle CycleSamples.brewing_coordinator in
  Sim._shot_active (DataCoordinator.sim_source co') = false /\
  ShotMetrics.brew_state (CombinedState.shot (DataCoordinator.latest co'))
  = JStr "IDLE".
Proof.
  split; [reflexivity |].
  destruct (@failed_fetch_ends_shot mute_runtime
              CycleSamples.brewing_coordinator CycleSamples.failed_cycle
              (mk_exc URLError "timed out") eq_refl)
    as (_ & _ & Hidle & Hsim).
  split; [exact Hidle | exact (proj1 (Hsim eq_refl))].
Defined.

Lemma closed_paddle_brews_same_cycle_witness :
  Sim._shot_active
    (DataCoordinator.sim_source CycleSamples.idle_coordinator) = false /\
  ShotMetrics.brew_state
    (CombinedState.shot
       (DataCoordinator.latest
          (@DataCoordinator._update_once mute_runtime
             CycleSamples.closed_cycle CycleSamples.idle_coordinator)))
  = JStr "BREWING".
Proof.
  split; [reflexivity |].
  apply (@closed_paddle_brews_same_cycle mute_runtime
           CycleSamples.idle_coordinator CycleSamples.closed_cycle
           Samples.sparse_payload eq_refl sparse_payload_coercible
           eq_refl eq_refl).
Defined.

Lemma cloud_cycle_skips_tick_witness :
  CloudSrc._ready Samples.polled_cloud = true /\
  let co' := @DataCoordinator._update_once mute_runtime
               CycleSamples.closed_cycle CycleSamples.polled_coordinator in
  CombinedState.shot (DataCoordinator.latest co')
  = CloudSrc._latest Samples.polled_cloud /\
  Sim._last_update (DataCoordinator.sim_source co') = 0.
Proof.
  split; [reflexivity |].
  destruct (@cloud_cycle_skips_tick mute_runtime
              CycleSamples.polled_coordinator CycleSamples.closed_cycle
              Samples.polled_cloud eq_refl eq_refl eq_refl)
    as (Hshot & _ & Hclock & _).
  split; [exact Hshot | exact Hclock].
Defined.

(** ** Runs of the cloud source *)

Section CloudRunFacts.
Context {rt : PyRuntime}.

#[local] Existing Instances CloudSrc.result_ret CloudSrc.result_bind.

Lemma run_snoc (actions : list CloudRun.action) (a : CloudRun.action)
    (c : CloudSrc.t) :
  CloudRun.run (actions ++ [a]) c = CloudRun.act a (CloudRun.run actions c).
Proof. unfold CloudRun.run. by rewrite fold_left_app. Qed.

Lemma run_reachable (actions : list CloudRun.action) (c : CloudSrc.t) :
  cloud_reachable c -> cloud_reachable (CloudRun.run actions c).
Proof.
  intros Hc. induction actions as [|a actions IH] using rev_ind; [done |].
  rewrite run_snoc. destruct a; by constructor.
Qed.

Lemma shot_time_nonneg (time_now : Q) (brewing_start : json) :
  (0 <= CloudSrc.shot_time time_now brewing_start)%Z.
Proof.
  unfold CloudSrc.shot_time.
  destruct brewing_start; try done;
    apply int_of_float_bounds, max_ge_l.
Qed.

Lemma parse_shot_time
    (time_now : Q) (data : json) (previous snap : ShotMetrics.t) :
  CloudSrc._parse_dashboard time_now (Some data) previous = inr snap ->
  (0 <= ShotMetrics.shot_time_ms snap)%Z.
Proof.
  unfold CloudSrc._parse_dashboard, mbind, mret,
    CloudSrc.result_bind, CloudSrc.result_ret.
  intros H. repeat case_match; simplify_eq; cbn; apply shot_time_nonneg.
Qed.

Lemma poll_once_reading
    (time_now : Q) (o : CloudSrc.poll_outcome) (c : CloudSrc.t) :
  let r := CloudSrc.poll_once time_now o c in
  (0 <= ShotMetrics.shot_time_ms r)%Z /\
  (ShotMetrics.notes r = "Cloud dashboard"%string \/
   ShotMetrics.notes r = "No dashboard data yet"%string \/
   exists text : string, ShotMetrics.notes r = "Cloud error: " +:+ text).
Proof.
  cbn zeta. unfold CloudSrc.poll_once.
  destruct o as [e | [data|]].
  - split; [done |]. right. right. by eexists.
  - destruct (CloudSrc._parse_dashboard _ _ _) as [e|snap] eqn:E.
    + split; [done |]. right. right. by eexists.
    + split; [by eapply parse_shot_time |].
      left. by apply parse_carries in E as [_ E].
  - split; [done |]. right. by left.
Qed.

(** X15. Every reading the cloud source publishes has a shot time that is
    not negative, and its note is one of five: the initial "Waiting for
    cloud...", "Cloud dashboard", "No dashboard data yet", or "Cloud error: "
    or "Cloud disabled: " followed by the text of an exception. *)
Theorem cloud_reading_invariant (c : CloudSrc.t) :
  cloud_reachable c ->
  (0 <= ShotMetrics.shot_time_ms (CloudSrc._latest c))%Z /\
  CloudRun.note_form (ShotMetrics.notes (CloudSrc._latest c)).
Proof.
  unfold CloudRun.note_form.
  induction 1 as [| ev c _ IH | c _ IH].
  - split; [done | by left].
  - unfold CloudSrc.loop_step.
    destruct (CloudSrc.phase c), ev as [[|e] | time_now o]; cbn; try done.
    + split; [done |]. do 4 right. by eexists.
    + destruct (CloudSrc._stop c); cbn; [done |].
      destruct (poll_once_reading time_now o c) as [Ht Hn].
      split; [done |].
      destruct Hn as [Hn | [Hn | Hn]]; tauto.
  - exact IH.
Qed.

Lemma poll_once_not_disabled
    (time_now : Q) (o : CloudSrc.poll_outcome) (c : CloudSrc.t) :
  String.prefix "Cloud disabled"
    (ShotMetrics.notes (CloudSrc.poll_once time_now o c)) = false.
Proof.
  destruct (poll_once_reading time_now o c) as [_ [-> | [-> | [t ->]]]];
    reflexivity.
Qed.

Lemma disabled_means_finished (c : CloudSrc.t) :
  cloud_reachable c ->
  String.prefix "Cloud disabled" (ShotMetrics.notes (CloudSrc._latest c))
  = true ->
  CloudSrc.phase c = CloudSrc.Finished /\ CloudSrc._ready c = true.
Proof.
  induction 1 as [| ev c _ IH | c _ IH].
  - discriminate.
  - unfold CloudSrc.loop_step.
    destruct (CloudSrc.phase c) eqn:Hp, ev as [[|e] | time_now o]; cbn;
      try (intros H; destruct (IH H); split; congruence); try done.
    destruct (CloudSrc._stop c); cbn.
    + intros H; destruct (IH H); split; congruence.
    + by rewrite poll_once_not_disabled.
  - cbn. intros H. destruct (IH H) as [Hp Hr].
    unfold CloudSrc.is_running. by rewrite Hp.
Qed.

Lemma finished_run (actions : list CloudRun.action) (c : CloudSrc.t) :
  CloudSrc.phase c = CloudSrc.Finished ->
  CloudSrc.phase (CloudRun.run actions c) = CloudSrc.Finished /\
  CloudSrc._latest (CloudRun.run actions c) = CloudSrc._latest c /\
  CloudSrc._ready (CloudRun.run actions c) = CloudSrc._ready c.
Proof.
  intros Hp. induction actions as [|a actions IH] using rev_ind; [done |].
  rewrite run_snoc. destruct IH as (IHp & IHl & IHr).
  destruct a as [ev|]; cbn.
  - unfold CloudSrc.loop_step. by rewrite IHp.
  - unfold CloudSrc.is_running. by rewrite IHp.
Qed.

(** X16. A failed setup disables the cloud source for good: once the note
    starts with "Cloud disabled", whatever the background thread and
    [stop()] do afterwards, the recorded reading stays the same and
    [get_snapshot] keeps returning the fallback simulator's snapshot. *)
Theorem disabled_is_permanent
    (c : CloudSrc.t) (actions : list CloudRun.action)
    (d : Sim.draws) (clock : Q) (fallback : Sim.t) :
  cloud_reachable c ->
  String.prefix "Cloud disabled" (ShotMetrics.notes (CloudSrc._latest c))
  = true ->
  CloudSrc._latest (CloudRun.run actions c) = CloudSrc._latest c /\
  CloudSrc.get_snapshot d clock fallback (CloudRun.run actions c)
  = Sim.get_snapshot d clock fallback.
Proof.
  intros Hc Hn.
  destruct (disabled_means_finished c Hc Hn) as [Hp Hr].
  destruct (finished_run actions c Hp) as (_ & Hl & Hr').
  split; [exact Hl |].
  unfold CloudSrc.get_snapshot. by rewrite Hr', Hr, Hl, Hn.
Qed.

(** X17. The flags of the cloud source only go one way: readiness, once
    signalled, and the stop event, once set, stay so through every later
    step; and once the background thread is done the recorded reading and
    readiness no longer change. *)
Theorem cloud_flags_monotone
    (c : CloudSrc.t) (actions : list CloudRun.action) :
  (CloudSrc._ready c = true ->
   CloudSrc._ready (CloudRun.run actions c) = true) /\
  (CloudSrc._stop c = true ->
   CloudSrc._stop (CloudRun.run actions c) = true) /\
  (CloudSrc.phase c = CloudSrc.Finished ->
   CloudSrc._latest (CloudRun.run actions c) = CloudSrc._latest c /\
   CloudSrc._ready (CloudRun.run actions c) = CloudSrc._ready c).
Proof.
  split; [| split].
  - intros Hr. induction actions as [|a actions IH] using rev_ind; [done |].
    rewrite run_snoc. destruct a as [ev|]; cbn; [| done].
    unfold CloudSrc.loop_step. repeat case_match; by cbn.
  - intros Hs. induction actions as [|a actions IH] using rev_ind; [done |].
    rewrite run_snoc. destruct a as [ev|]; cbn; [| done].
    unfold CloudSrc.loop_step. repeat case_match; by cbn.
  - intros Hp. by destruct (finished_run actions c Hp) as (_ & ? & ?).
Qed.

End CloudRunFacts.

Lemma disabled_cloud_reachable :
  @cloud_reachable mute_runtime Samples.disabled_cloud.
Proof. unfold Samples.disabled_cloud. repeat constructor. Qed.

Lemma cloud_reading_invariant_witness :
  @cloud_reachable mute_runtime Samples.polled_cloud /\
  (0 <= ShotMetrics.shot_time_ms (CloudSrc._latest Samples.polled_cloud))%Z.
Proof.
  split; [exact polled_cloud_reachable |].
  exact (proj1 (@cloud_reading_invariant mute_runtime Samples.polled_cloud
                  polled_cloud_reachable)).
Defined.

Lemma disabled_is_permanent_witness :
  let later :=
    [CloudRun.Thread (CloudSrc.Poll 7 (CloudSrc.PollDone
                                         (Some Samples.boiler_dashboard)));
     CloudRun.Halt] in
  ShotMetrics.notes (CloudSrc._latest Samples.disabled_cloud)
  = "Cloud disabled: no route"%string /\
  CloudSrc.get_snapshot Samples.later_tick 5 Samples.brewing_sim
    (@CloudRun.run mute_runtime later Samples.disabled_cloud)
  = Sim.get_snapshot Samples.later_tick 5 Samples.brewing_sim.
Proof.
  cbn zeta. split; [reflexivity |].
  apply (@disabled_is_permanent mute_runtime Samples.disabled_cloud _
           Samples.later_tick 5 Samples.brewing_sim
           disabled_cloud_reachable).
  reflexivity.
Defined.

Lemma cloud_flags_monotone_witness :
  let later :=
    [CloudRun.Halt;
     CloudRun.Thread (CloudSrc.Poll 7 (CloudSrc.PollRaised
                                         (mk_exc OtherException "timeout")))] in
  CloudSrc._ready Samples.polled_cloud = true /\
  CloudSrc._ready (@CloudRun.run mute_runtime later Samples.polled_cloud)
  = true.
Proof.
  cbn zeta. split; [reflexivity |].
  apply (proj1 (@cloud_flags_monotone mute_runtime Samples.polled_cloud _)).
  reflexivity.
Defined.

(** ** Parsing of the dashboard *)

Section ParseFacts.
Context {rt : PyRuntime}.

#[local] Existing Instances CloudSrc.result_ret CloudSrc.result_bind.

Lemma for_each_app (ws1 ws2 : list json) (acc : CloudSrc.outputs) :
  CloudSrc.for_each (ws1 ++ ws2) acc
  = CloudSrc.for_each ws1 acc ≫= CloudSrc.for_each ws2.
Proof.
  revert acc. induction ws1 as [|w ws1 IH]; intros acc; [done |].
  cbn. destruct (CloudSrc.route acc w) as [e|acc']; cbn; [done |].
  apply IH.
Qed.

Lemma route_unknown (acc : CloudSrc.outputs) (wm : gmap string json) :
  CloudRun.known_tag
    (Builtins.or (option.default JNull (wm !! "widget_type"))
                 (option.default JNull (wm !! "code"))) = false ->
  CloudSrc.route acc (JObj wm) = inr acc.
Proof.
  unfold CloudRun.known_tag, CloudSrc.route. cbn.
  intros H.
  repeat (apply orb_false_iff in H as [H ?]).
  by repeat match goal with
            | E : Builtins.eq_str _ _ = false |- _ => rewrite E; clear E
            end.
Qed.

(** X18. A widget whose type tag is none of the six the parser looks for
    has no effect: a dashboard parses to the same reading with or without
    it, wherever it stands in the widget list. *)
Theorem unknown_widget_ignored
    (time_now : Q) (previous : ShotMetrics.t)
    (m wm : gmap string json) (ws1 ws2 : list json) :
  CloudRun.known_tag
    (Builtins.or (option.default JNull (wm !! "widget_type"))
                 (option.default JNull (wm !! "code"))) = false ->
  CloudSrc._parse_dashboard time_now
    (Some (JObj (<["widgets" := JArr (ws1 ++ JObj wm :: ws2)]> m))) previous
  = CloudSrc._parse_dashboard time_now
      (Some (JObj (<["widgets" := JArr (ws1 ++ ws2)]> m))) previous.
Proof.
  intros Htag. unfold CloudSrc._parse_dashboard, Builtins.get.
  rewrite !lookup_insert_eq. cbv [from_option id Builtins.iter].
  cbn [mbind CloudSrc.result_bind].
  assert (E : forall acc,
             CloudSrc.for_each (ws1 ++ JObj wm :: ws2) acc
             = CloudSrc.for_each (ws1 ++ ws2) acc).
  { intros acc. rewrite !for_each_app.
    destruct (CloudSrc.for_each ws1 acc) as [e|acc']; [done |].
    cbn [mbind CloudSrc.result_bind CloudSrc.for_each].
    by rewrite route_unknown. }
  by rewrite E.
Qed.

(** X19. A dashboard that is not a table, has no widget list or an empty
    one parses to the previous reading with brew state "UNKNOWN", shot time
    0 and the note "Cloud dashboard": target weight and boiler temperature
    are kept, as are the fields the cloud never provides. *)
Theorem parse_without_widgets
    (time_now : Q) (data : json) (previous : ShotMetrics.t) :
  (forall m : gmap string json,
     data = JObj m ->
     m !! "widgets" = None \/ m !! "widgets" = Some (JArr [])) ->
  CloudSrc._parse_dashboard time_now (Some data) previous
  = inr (ShotMetrics.mk
           (ShotMetrics.weight_g previous)
           (ShotMetrics.flow_g_s previous)
           0%Z
           (ShotMetrics.target_weight_g previous)
           (ShotMetrics.pressure_bar previous)
           (ShotMetrics.boiler_temp_c previous)
           (ShotMetrics.group_temp_c previous)
           (JStr "UNKNOWN")
           (ShotMetrics.scale_connected previous)
           "Cloud dashboard").
Proof.
  intros H. unfold CloudSrc._parse_dashboard.
  destruct data as [| | | | | |m]; try reflexivity.
  destruct (H m eq_refl) as [E|E]; unfold Builtins.get; rewrite E;
    reflexivity.
Qed.

End ParseFacts.

Lemma unknown_widget_ignored_witness :
  CloudRun.known_tag
    (Builtins.or
       (option.default JNull (ParseSamples.steam_members !! "widget_type"))
       (option.default JNull (ParseSamples.steam_members !! "code")))
  = false /\
  @CloudSrc._parse_dashboard mute_runtime 0
    (Some (JObj (<["widgets" :=
                    JArr ([] ++ JObj ParseSamples.steam_members
                             :: [ParseSamples.boiler_widget])]> ∅)))
    ShotMetrics.default
  = @CloudSrc._parse_dashboard mute_runtime 0
      (Some (JObj (<["widgets" :=
                      JArr ([] ++ [ParseSamples.boiler_widget])]> ∅)))
      ShotMetrics.default.
Proof.
  split; [reflexivity |].
  apply (@unknown_widget_ignored mute_runtime 0 ShotMetrics.default ∅
           ParseSamples.steam_members [] [ParseSamples.boiler_widget]).
  reflexivity.
Defined.

Lemma parse_without_widgets_witness :
  ShotMetrics.boiler_temp_c (CloudSrc._latest Samples.polled_cloud) == 94 /\
  @CloudSrc._parse_dashboard mute_runtime 9 (Some (JObj ∅))
    (CloudSrc._latest Samples.polled_cloud)
  = inr (ShotMetrics.mk 0 0 0%Z
           (ShotMetrics.target_weight_g (CloudSrc._latest Samples.polled_cloud))
           0
           (ShotMetrics.boiler_temp_c (CloudSrc._latest Samples.polled_cloud))
           0 (JStr "UNKNOWN") false "Cloud dashboard").
Proof.
  split; [reflexivity |].
  rewrite (@parse_without_widgets mute_runtime 9 (JObj ∅)
             (CloudSrc._latest Samples.polled_cloud)).
  - reflexivity.
  - intros m [= <-]. by left.
Defined.

(** ** More on the simulated source *)

Lemma div_nonneg (a b : Q) : 0 <= a -> 0 < b -> 0 <= a / b.
Proof. intros Ha Hb. apply Qle_shift_div_l; [done | lra]. Qed.

Lemma brewing_factor (s : Sim.t) (d : Sim.draws) :
  sim_reachable s ->
  Sim._shot_start s <= Sim.now d ->
  let ramp := Py.min 1 ((Sim.now d - Sim._shot_start s) / 4) in
  let decay :=
    Py.max (2#10)
           (1 - Sim._weight s / Py.max 1 (Sim.target_weight_g s * (11#10))) in
  0 <= ramp * decay <= 1.
Proof.
  intros Hr Hc ramp decay.
  pose proof (weight_nonneg s Hr) as Hw.
  pose proof (max_ge_l 1 (Sim.target_weight_g s * (11#10))) as Hcap.
  set (cap := Py.max 1 (Sim.target_weight_g s * (11#10))) in *.
  assert (Hq : 0 <= Sim._weight s / cap) by (apply div_nonneg; lra).
  assert (Hd : 2#10 <= decay <= 1).
  { subst decay.
    destruct (max_cases (2#10) (1 - Sim._weight s / cap)) as [[? ->]|[? ->]];
      lra. }
  set (e := Sim.now d - Sim._shot_start s) in *.
  assert (E4 : e / 4 == e * (1#4)) by (unfold Qdiv; reflexivity).
  assert (Hramp : 0 <= ramp <= 1).
  { subst ramp e.
    destruct (min_cases 1 ((Sim.now d - Sim._shot_start s) / 4))
      as [[? ->]|[? ->]]; lra. }
  nra.
Qed.

(** X20. While a shot is active, a tick whose clock is not before the start
    of the shot and whose draws are in range leaves a flow between 0 and
    2.7 g/s and a pressure between 1.7 and 10.3 bar, and adds at most 2.7 g
    per second of the clamped time step to the weight. *)
Theorem brewing_tick_bounds (s : Sim.t) (d : Sim.draws) :
  sim_reachable s ->
  Sim._shot_active s = true ->
  Sim.draws_in_range d ->
  Sim._shot_start s <= Sim.now d ->
  let s' := Sim._tick d s in
  let dt := Py.max (1#1000) (Sim.now d - Sim._last_update s) in
  0 <= Sim._flow s' <= 27#10 /\
  17#10 <= Sim._pressure s' <= 103#10 /\
  Sim._weight s' <= Sim._weight s + (27#10) * dt.
Proof.
  intros Hr Ha (Hf & Hp & _) Hc s' dt.
  pose proof (brewing_factor s d Hr Hc) as Hfac. cbn zeta in Hfac.
  pose proof (tick_dt_pos d s) as Hdt. fold dt in Hdt.
  subst s'. unfold Sim._tick. rewrite Ha. cbn. fold dt.
  set (ramp := Py.min 1 ((Sim.now d - Sim._shot_start s) / 4)) in *.
  set (decay := Py.max (2#10) _) in *.
  assert (E : (26#10) * ramp * decay == (26#10) * (ramp * decay)) by ring.
  assert (E' : 8 * ramp * decay == 8 * (ramp * decay)) by ring.
  set (raw := (26#10) * ramp * decay + Sim.u_flow d) in *.
  assert (Hraw : raw <= 27#10) by (subst raw; lra).
  destruct (max_cases 0 raw) as [[H ->]|[H ->]]; repeat split; try lra; nra.
Qed.

(** X21. A running shot never stalls: once four seconds have passed since
    it started, every tick leaves a flow of at least 0.42 g/s, whatever the
    weight already reached, and so raises the weight by at least 0.42 g per
    second of the clamped time step. *)
Theorem brewing_never_stalls (s : Sim.t) (d : Sim.draws) :
  Sim._shot_active s = true ->
  -(1#10) <= Sim.u_flow d ->
  4 <= Sim.now d - Sim._shot_start s ->
  let s' := Sim._tick d s in
  let dt := Py.max (1#1000) (Sim.now d - Sim._last_update s) in
  Sim._shot_active s' = true /\
  42#100 <= Sim._flow s' /\
  Sim._weight s + (42#100) * dt <= Sim._weight s' /\
  Sim._weight s < Sim._weight s'.
Proof.
  intros Ha Hu He s' dt.
  pose proof (tick_dt_pos d s) as Hdt. fold dt in Hdt.
  subst s'. unfold Sim._tick. rewrite Ha. cbn. fold dt.
  set (e := Sim.now d - Sim._shot_start s) in *.
  assert (E4 : e / 4 == e * (1#4)) by (unfold Qdiv; reflexivity).
  assert (Hramp : Py.min 1 (e / 4) == 1).
  { destruct (min_cases 1 (e / 4)) as [[? ->]|[? ->]]; lra. }
  set (ramp := Py.min 1 (e / 4)) in *.
  pose proof (max_ge_l (2#10)
                (1 - Sim._weight s
                     / Py.max 1 (Sim.target_weight_g s * (11#10)))) as Hd.
  set (decay := Py.max (2#10) _) in *.
  assert (E : (26#10) * ramp * decay == (26#10) * decay)
    by (rewrite Hramp; ring).
  set (raw := (26#10) * ramp * decay + Sim.u_flow d) in *.
  assert (Hraw : 42#100 <= raw) by (subst raw; lra).
  destruct (max_cases 0 raw) as [[H ->]|[H ->]]; repeat split; try lra; nra.
Qed.

Lemma brewing_sim_reachable : sim_reachable Samples.brewing_sim.
Proof.
  unfold Samples.brewing_sim, Samples.idle_sim. repeat constructor.
Qed.

Lemma later_tick_in_range : Sim.draws_in_range Samples.later_tick.
Proof. unfold Sim.draws_in_range. cbn. lra. Qed.

Lemma brewing_tick_bounds_witness :
  Sim._shot_active Samples.brewing_sim = true /\
  Sim._shot_start Samples.brewing_sim <= Sim.now Samples.later_tick /\
  Sim._flow (Sim._tick Samples.later_tick Samples.brewing_sim) <= 27#10.
Proof.
  split; [reflexivity |]. split; [vm_compute; discriminate |].
  apply (brewing_tick_bounds Samples.brewing_sim Samples.later_tick
           brewing_sim_reachable eq_refl later_tick_in_range).
  vm_compute; discriminate.
Defined.

Lemma brewing_never_stalls_witness :
  4 <= Sim.now Samples.later_tick - Sim._shot_start Samples.brewing_sim /\
  Sim._weight Samples.brewing_sim
  < Sim._weight (Sim._tick Samples.later_tick Samples.brewing_sim).
Proof.
  split; [vm_compute; discriminate |].
  apply (brewing_never_stalls Samples.brewing_sim Samples.later_tick eq_refl).
  - vm_compute; discriminate.
  - vm_compute; discriminate.
Defined.

Lemma tick_temperatures (d : Sim.draws) (s : Sim.t) :
  Sim._boiler_temp (Sim._tick d s) = Sim._boiler_temp s + Sim.u_boiler d /\
  Sim._group_temp (Sim._tick d s) = Sim._group_temp s + Sim.u_group d.
Proof. unfold Sim._tick. by destruct (Sim._shot_active s). Qed.

(** X22. The temperatures drift slowly: after [n] ticks whose draws are in
    range, shot or no shot, the boiler temperature is within 0.02 n and the
    group temperature within 0.015 n of where it was; notifications do not
    move them. *)
Theorem temperature_drift (ds : list Sim.draws) (s : Sim.t) :
  Forall Sim.draws_in_range ds ->
  let n := inject_Z (Z.of_nat (length ds)) in
  Sim._boiler_temp s - (2#100) * n <= Sim._boiler_temp (Sim.ticks ds s)
  /\ Sim._boiler_temp (Sim.ticks ds s) <= Sim._boiler_temp s + (2#100) * n
  /\ Sim._group_temp s - (15#1000) * n <= Sim._group_temp (Sim.ticks ds s)
  /\ Sim._group_temp (Sim.ticks ds s) <= Sim._group_temp s + (15#1000) * n
  /\ (forall clock status,
        Sim._boiler_temp (Sim.notify_arduino clock status s)
        = Sim._boiler_temp s /\
        Sim._group_temp (Sim.notify_arduino clock status s)
        = Sim._group_temp s).
Proof.
  intros Hds. cbn zeta.
  split; [| split; [| split; [| split]]].
  5: { intros clock status. unfold Sim.notify_arduino.
       by repeat case_match. }
  all: induction ds as [|d ds IH] using rev_ind;
    [cbn; change (inject_Z (Z.of_nat 0)) with 0; lra |].
  all: apply Forall_app in Hds as [Hds Hd];
    apply Forall_cons in Hd as [(_ & _ & Hb & Hg) _];
    specialize (IH Hds);
    rewrite ticks_snoc, length_app, Nat.add_1_r, Nat2Z.inj_succ;
    unfold Z.succ; rewrite inject_Z_plus;
    change (inject_Z 1) with 1;
    destruct (tick_temperatures d (Sim.ticks ds s)) as [Eb Eg];
    rewrite ?Eb, ?Eg; lra.
Qed.

Lemma temperature_drift_witness :
  Forall Sim.draws_in_range [Samples.later_tick] /\
  Sim._boiler_temp (Sim.ticks [Samples.later_tick] Samples.brewing_sim)
  <= Sim._boiler_temp Samples.brewing_sim
     + (2#100) * inject_Z (Z.of_nat (length [Samples.later_tick])).
Proof.
  assert (H : Forall Sim.draws_in_range [Samples.later_tick])
    by (constructor; [exact later_tick_in_range | constructor]).
  split; [exact H |].
  exact (proj1 (proj2 (temperature_drift [Samples.later_tick]
                         Samples.brewing_sim H))).
Defined.

Lemma round_half_even_error (y : Q) :
  -(1#2) <= inject_Z (Py.round_half_even y) - y <= 1#2.
Proof.
  unfold Py.round_half_even.
  destruct (floor_bounds y) as [Hl Hu].
  destruct (Qcompare_spec (y - inject_Z (Qfloor y)) (1#2)) as [H|H|H].
  - destruct (Z.even (Qfloor y)); rewrite ?inject_Z_plus;
      change (inject_Z 1) with 1; lra.
  - lra.
  - rewrite inject_Z_plus. change (inject_Z 1) with 1. lra.
Qed.

Lemma round_error (x : Q) (n : nat) :
  let scale := inject_Z (10 ^ Z.of_nat n) in
  -(1#2) <= (Py.round x n - x) * scale <= 1#2.
Proof.
  cbn zeta. unfold Py.round.
  pose proof (scale_pos n) as Hs.
  set (scale := inject_Z (10 ^ Z.of_nat n)) in *.
  pose proof (round_half_even_error (x * scale)) as He.
  set (k := inject_Z (Py.round_half_even (x * scale))) in *.
  assert (E : (k / scale - x) * scale == k - x * scale) by (field; lra).
  lra.
Qed.

Lemma round_zero (n : nat) : Py.round 0 n == 0.
Proof.
  unfold Py.round.
  assert (E : Py.round_half_even (0 * inject_Z (10 ^ Z.of_nat n)) = 0%Z).
  { unfold Py.round_half_even.
    assert (Hz : 0 * inject_Z (10 ^ Z.of_nat n) == 0) by ring.
    assert (Hf : Qfloor (0 * inject_Z (10 ^ Z.of_nat n)) = 0%Z)
      by (rewrite Hz; reflexivity).
    rewrite Hf.
    destruct (Qcompare_spec (0 * inject_Z (10 ^ Z.of_nat n) - inject_Z 0)
                            (1#2)) as [H|H|H]; try done;
      exfalso; change (inject_Z 0) with 0 in H; lra. }
  rewrite E. unfold Qdiv. change (inject_Z 0) with 0. ring.
Qed.

Lemma clamped_round (x : Q) (n : nat) :
  0 <= Py.max 0 (Py.round x n) /\
  (0 <= x -> Py.max 0 (Py.round x n) == Py.round x n).
Proof.
  split; [apply max_ge_l |].
  intros Hx. pose proof (round_mono 0 x n Hx) as Hm.
  rewrite round_zero in Hm.
  destruct (max_cases 0 (Py.round x n)) as [[_ ->]|[? ->]]; lra.
Qed.

Lemma flow_nonneg (s : Sim.t) : sim_reachable s -> 0 <= Sim._flow s.
Proof.
  induction 1 as [target now | clock status s _ IH | d s _ IH].
  - cbn. lra.
  - unfold Sim.notify_arduino. repeat case_match; cbn; lra.
  - unfold Sim._tick. destruct (Sim._shot_active s); cbn.
    + apply max_ge_l.
    + lra.
Qed.

(** X23. What a snapshot reports is the state of the simulator to within
    the rounding: weight, flow and pressure are never negative, the weight
    and the two temperatures are within 0.05 and the flow within 0.005 of
    the simulator's own values. *)
Theorem reading_accuracy (clock : Q) (s : Sim.t) :
  sim_reachable s ->
  let r := Sim.reading clock s in
  0 <= ShotMetrics.weight_g r /\
  0 <= ShotMetrics.flow_g_s r /\
  0 <= ShotMetrics.pressure_bar r /\
  -(1#20) <= ShotMetrics.weight_g r - Sim._weight s <= 1#20 /\
  -(1#200) <= ShotMetrics.flow_g_s r - Sim._flow s <= 1#200 /\
  -(1#20) <= ShotMetrics.boiler_temp_c r - Sim._boiler_temp s <= 1#20 /\
  -(1#20) <= ShotMetrics.group_temp_c r - Sim._group_temp s <= 1#20.
Proof.
  intros Hr r. subst r. unfold Sim.reading. cbn.
  pose proof (weight_nonneg s Hr) as Hw.
  pose proof (flow_nonneg s Hr) as Hf.
  destruct (clamped_round (Sim._weight s) 1) as [Hw0 Hw1].
  destruct (clamped_round (Sim._flow s) 2) as [Hf0 Hf1].
  destruct (clamped_round (Sim._pressure s) 2) as [Hp0 _].
  specialize (Hw1 Hw). specialize (Hf1 Hf).
  pose proof (round_error (Sim._weight s) 1) as Ew.
  pose proof (round_error (Sim._flow s) 2) as Ef.
  pose proof (round_error (Sim._boiler_temp s) 1) as Eb.
  pose proof (round_error (Sim._group_temp s) 1) as Eg.
  cbn zeta in Ew, Ef, Eb, Eg.
  change (inject_Z (10 ^ Z.of_nat 1)) with 10 in *.
  change (inject_Z (10 ^ Z.of_nat 2)) with 100 in *.
  repeat split; lra.
Qed.

Lemma reading_accuracy_witness :
  sim_reachable Samples.brewing_sim /\
  ShotMetrics.weight_g (Sim.reading 5 Samples.brewing_sim)
  - Sim._weight Samples.brewing_sim <= 1#20.
Proof.
  split; [exact brewing_sim_reachable |].
  apply (reading_accuracy 5 Samples.brewing_sim brewing_sim_reachable).
Defined.

Lemma pow_nonneg (q : Q) (n : nat) : 0 <= q -> 0 <= q ^ Z.of_nat n.
Proof.
  intros Hq. induction n as [|n IH].
  - change (Z.of_nat 0) with 0%Z. cbn. lra.
  - rewrite pow_succ. nra.
Qed.

Lemma decay_upper (n : nat) :
  (999#1000) ^ Z.of_nat n * (999 + inject_Z (Z.of_nat n)) <= 999.
Proof.
  induction n as [|n IH].
  - change (Z.of_nat 0) with 0%Z. change ((999#1000) ^ 0) with 1.
    change (inject_Z 0) with 0. lra.
  - rewrite pow_succ, Nat2Z.inj_succ. unfold Z.succ.
    rewrite inject_Z_plus. change (inject_Z 1) with 1.
    pose proof (pow_nonneg (999#1000) n ltac:(lra)) as Hp.
    assert (0 <= inject_Z (Z.of_nat n)).
    { change 0 with (inject_Z 0). rewrite <- Zle_Qle. lia. }
    nra.
Qed.

Lemma decay_lower (n : nat) :
  1 - inject_Z (Z.of_nat n) * (1#1000) <= (999#1000) ^ Z.of_nat n.
Proof.
  induction n as [|n IH].
  - change (Z.of_nat 0) with 0%Z. change ((999#1000) ^ 0) with 1.
    change (inject_Z 0) with 0. lra.
  - rewrite pow_succ, Nat2Z.inj_succ. unfold Z.succ.
    rewrite inject_Z_plus. change (inject_Z 1) with 1.
    pose proof (pow_nonneg (999#1000) n ltac:(lra)) as Hp.
    assert (0 <= inject_Z (Z.of_nat n)).
    { change 0 with (inject_Z 0). rewrite <- Zle_Qle. lia. }
    nra.
Qed.

(** X24. An idle simulator's weight reaches exactly 0: after [n >= 1] ticks
    with 19980 w < 999 + n, where [w] is the weight the idle period starts
    with, the weight is 0, and it stays 0 for every longer run. *)
Theorem idle_weight_vanishes (ds : list Sim.draws) (s : Sim.t) :
  Sim._shot_active s = false ->
  0 <= Sim._weight s ->
  ds <> [] ->
  19980 * Sim._weight s < 999 + inject_Z (Z.of_nat (length ds)) ->
  Sim._weight (Sim.ticks ds s) = 0.
Proof.
  intros Hi Hw Hne Hn.
  destruct ds as [|d0 ds0] using rev_ind; [done |]. clear IHds0 Hne.
  rename ds0 into ds, d0 into d.
  rewrite ticks_snoc. rewrite length_app, Nat.add_1_r in Hn.
  destruct (idle_ticks ds s Hi Hw) as (Ha & _ & _ & Hw0 & Hw1).
  cbn zeta in Hw1.
  destruct (tick_idle d _ Ha Hw0) as (_ & _ & _ & _ & _ & Hz & _).
  apply Hz.
  pose proof (decay_upper (S (length ds))) as Hd.
  rewrite pow_succ in Hd.
  pose proof (pow_nonneg (999#1000) (length ds) ltac:(lra)) as Hp.
  set (p := (999#1000) ^ Z.of_nat (length ds)) in *.
  set (m := inject_Z (Z.of_nat (S (length ds)))) in *.
  assert (0 <= m).
  { subst m. change 0 with (inject_Z 0). rewrite <- Zle_Qle. lia. }
  assert (Hb : Sim._weight (Sim.ticks ds s) * (999#1000)
               <= Sim._weight s * (p * (999#1000))) by nra.
  assert (Hc : Sim._weight s * (p * (999#1000)) * (999 + m)
               <= Sim._weight s * 999) by nra.
  nra.
Qed.

Lemma idle_weight_vanishes_witness :
  Sim._shot_active DecaySamples.short_shot = false /\
  Sim._weight DecaySamples.short_shot == 505#10000 /\
  ~ Sim._weight
      (Sim.ticks (take 9 DecaySamples.ten_ticks) DecaySamples.short_shot)
    == 0 /\
  Sim._weight (Sim.ticks DecaySamples.ten_ticks DecaySamples.short_shot) = 0.
Proof.
  split; [reflexivity |]. split; [reflexivity |].
  split; [intros H; vm_compute in H; discriminate H |].
  apply idle_weight_vanishes.
  - reflexivity.
  - vm_compute; discriminate.
  - discriminate.
  - vm_compute; reflexivity.
Defined.

(** X25. The end of a shot does not reset the weight: while idle each tick
    takes 0.1 % off, so after [n] ticks a weight [w] is still
    w * 0.999 ^ n, which is at least w (1 - n / 1000), for as long as that
    bound is 0.05 or more. *)
Theorem idle_weight_lingers (ds : list Sim.draws) (s : Sim.t) :
  Sim._shot_active s = false ->
  0 <= Sim._weight s ->
  let n := Z.of_nat (length ds) in
  5#100 <= Sim._weight s * (1 - inject_Z n * (1#1000)) ->
  Sim._weight (Sim.ticks ds s) == Sim._weight s * (999#1000) ^ n /\
  Sim._weight s * (1 - inject_Z n * (1#1000)) <= Sim._weight (Sim.ticks ds s).
Proof.
  intros Hi Hw. cbn zeta.
  induction ds as [|d ds IH] using rev_ind; intros Hb.
  - change (Z.of_nat (length [])) with 0%Z in *.
    change ((999#1000) ^ 0) with 1. change (inject_Z 0) with 0 in *.
    change (Sim.ticks [] s) with s. split; lra.
  - rewrite length_app, Nat.add_1_r in *.
    pose proof (decay_lower (S (length ds))) as Hl.
    pose proof (decay_lower (length ds)) as Hl'.
    pose proof (pow_nonneg (999#1000) (length ds) ltac:(lra)) as Hp.
    rewrite pow_succ in *. rewrite Nat2Z.inj_succ in *. unfold Z.succ in *.
    rewrite inject_Z_plus in *. change (inject_Z 1) with 1 in *.
    set (p := (999#1000) ^ Z.of_nat (length ds)) in *.
    set (m := inject_Z (Z.of_nat (length ds))) in *.
    assert (Hm : 0 <= m).
    { subst m. change 0 with (inject_Z 0). rewrite <- Zle_Qle. lia. }
    destruct IH as [IHe IHb]; [nra |].
    destruct (idle_ticks ds s Hi Hw) as (Ha & _ & _ & Hw0 & _).
    destruct (tick_idle d _ Ha Hw0) as (_ & _ & _ & _ & _ & _ & Hk).
    rewrite ticks_snoc.
    assert (Hkeep : 5#100 <= Sim._weight (Sim.ticks ds s) * (999#1000)).
    { rewrite IHe. nra. }
    rewrite (Hk Hkeep), IHe. split; [ring | nra].
Qed.

Lemma idle_weight_lingers_witness :
  let idle := Sim.notify_arduino 6 (Samples.paddle_at 0) Samples.brewing_sim in
  Sim._shot_active idle = false /\
  Sim._weight idle * (1 - inject_Z 1 * (1#1000))
  <= Sim._weight (Sim.ticks [Samples.later_tick] idle).
Proof.
  cbn zeta. split; [reflexivity |].
  apply (idle_weight_lingers [Samples.later_tick]
           (Sim.notify_arduino 6 (Samples.paddle_at 0) Samples.brewing_sim)
           eq_refl).
  - vm_compute; discriminate.
  - vm_compute; discriminate.
Defined.

(** ** The status panel *)

Lemma category_text_nonempty (c : exc_class) (text : string) :
  String.eqb (ArduinoClient.category c +:+ text) "" = false.
Proof. by destruct c. Qed.

(** X26. After a cycle whose status request raised, on the simulated
    source, the status label shows the categorised error first and the
    source's note second, joined by " | ", and the paddle label shows
    "Open". *)
Theorem status_line_after_failure
    {rt : PyRuntime} (co : DataCoordinator.t)
    (i : DataCoordinator.cycle_input) (e : exc) :
  DataCoordinator.response i = ArduinoClient.Raised e ->
  DataCoordinator.lm_source co = DataCoordinator.Simulated ->
  let published :=
    DataCoordinator.latest (DataCoordinator._update_once i co) in
  DashboardApp.status_text published
  = (ArduinoClient.category (exc_cls e) +:+ exc_text e)
    +:+ " | Simulated" /\
  DashboardApp.paddle_text published = "Paddle: Open"%string.
Proof.
  intros Hresp Hsrc published. subst published.
  unfold DataCoordinator._update_once, DataCoordinator.latest,
    DataCoordinator.snapshot, DataCoordinator.notify.
  rewrite Hresp, Hsrc. cbn.
  unfold DashboardApp.status_text, DashboardApp.paddle_text. cbn.
  rewrite category_text_nonempty. by split.
Qed.

Lemma status_line_after_failure_witness :
  DashboardApp.status_text
    (DataCoordinator.latest
       (@DataCoordinator._update_once mute_runtime
          CycleSamples.failed_cycle CycleSamples.brewing_coordinator))
  = "HTTP error: timed out | Simulated"%string.
Proof.
  exact (proj1 (@status_line_after_failure mute_runtime
                  CycleSamples.brewing_coordinator CycleSamples.failed_cycle
                  (mk_exc URLError "timed out") eq_refl eq_refl)).
Defined.

Section PaddleFacts.
Context {rt : PyRuntime}.

(** X27. The window and the simulator read the paddle differently: for a
    status whose paddle is neither 0 nor 1 the paddle label says "Closed",
    while the simulator neither starts nor stops a shot. *)
Theorem odd_paddle_closed_without_shot
    (co : DataCoordinator.t) (i : DataCoordinator.cycle_input)
    (m : gmap string json) (n : Z) :
  DataCoordinator.response i = ArduinoClient.Decoded (JObj m) ->
  StatusSpec.coercible m ->
  Builtins.int (StatusSpec.field m "paddle" (JInt 0)) = inr n ->
  n <> 0%Z -> n <> 1%Z ->
  DataCoordinator.lm_source co = DataCoordinator.Simulated ->
  let co' := DataCoordinator._update_once i co in
  DashboardApp.paddle_text (DataCoordinator.latest co')
  = "Paddle: Closed"%string /\
  Sim._shot_active (DataCoordinator.sim_source co')
  = Sim._shot_active (DataCoordinator.sim_source co) /\
  Sim._shot_start (DataCoordinator.sim_source co')
  = Sim._shot_start (DataCoordinator.sim_source co).
Proof.
  intros Hresp Hc Hpaddle H0 H1 Hsrc co'. subst co'.
  unfold DataCoordinator._update_once, DataCoordinator.latest,
    DataCoordinator.snapshot, DataCoordinator.notify.
  rewrite Hresp, Hsrc, (fetch_status_decoded m Hc).
  assert (Hp : ArduinoStatus.paddle (StatusSpec.decoded_status m) = n)
    by (cbn; by apply int_value_ok).
  assert (Hsame : Sim.notify_arduino (DataCoordinator.notify_clock i)
                    (StatusSpec.decoded_status m)
                    (DataCoordinator.sim_source co)
                  = DataCoordinator.sim_source co).
  { unfold Sim.notify_arduino. rewrite Hp.
    apply Z.eqb_neq in H0, H1. by rewrite H0, H1. }
  rewrite Hsame. cbn.
  destruct (tick_keeps_shot (DataCoordinator.tick i)
              (DataCoordinator.sim_source co)) as (Ha & Hs & _).
  split; [| by split].
  unfold DashboardApp.paddle_text. cbn.
  rewrite (int_value_ok _ _ Hpaddle).
  apply Z.eqb_neq in H0. by rewrite H0.
Qed.

End PaddleFacts.

Lemma paddle_two_coercible :
  @StatusSpec.coercible mute_runtime PaddleSamples.paddle_two.
Proof.
  intros key v Hk Hv. unfold StatusSpec.int_fields in Hk.
  repeat (apply elem_of_cons in Hk as [-> | Hk];
          [vm_compute in Hv; inversion Hv; by eexists |]).
  by apply elem_of_nil in Hk.
Qed.

Lemma odd_paddle_closed_without_shot_witness :
  let co' := @DataCoordinator._update_once mute_runtime
               PaddleSamples.odd_cycle CycleSamples.idle_coordinator in
  DashboardApp.paddle_text (DataCoordinator.latest co')
  = "Paddle: Closed"%string /\
  Sim._shot_active (DataCoordinator.sim_source co') = false.
Proof.
  destruct (@odd_paddle_closed_without_shot mute_runtime
              CycleSamples.idle_coordinator PaddleSamples.odd_cycle
              PaddleSamples.paddle_two 2 eq_refl paddle_two_coercible
              eq_refl ltac:(discriminate) ltac:(discriminate) eq_refl)
    as (Htext & Hactive & _).
  split; [exact Htext | exact Hactive].
Defined.
